(** * ScreenControl tray for Linux: the screen/input bridge

    A shallow embedding of [src/linux/ScreenControlTray/screencontrol_tray.py]
    (classes [ScreenController], [GUIBridgeHandler], [GUIBridgeServer] and
    [ScreenControlTray.update_status]) and the properties of the bridge that
    the specification states about it.

    Python values are an inductive type, exceptions are an error result, and
    everything the program touches outside itself (the file system, the
    environment, the processes it spawns, the responses it writes, its log)
    is one explicit [World] threaded through a state-and-exception monad. *)

From Stdlib Require Import ZArith QArith Lia Ascii String List DecimalString DecimalPos.
From stdpp Require Import base option gmap strings list.

Set Warnings "-register-all".
Local Open Scope Z_scope.
Local Open Scope string_scope.
Local Open Scope list_scope.

(** ** Python values and builtins *)

Module Py.

(** A Python [float]: a finite value, an infinity or not-a-number. *)
Inductive PyFloat : Type :=
  | FFinite (q : Q)
  | FInf (negative : bool)
  | FNaN.

(** The values that [json.loads] produces and that the handlers pass on.
    Text is a [string] read character by character as code points: the
    character of code [n] is the code point [n], so the texts of the model
    are the Python texts whose code points are all below 256, and the
    builtins below are the Python ones on these texts. *)
Inductive PyVal : Type :=
  | VNone
  | VBool (b : bool)
  | VInt (z : Z)
  | VFloat (f : PyFloat)
  | VStr (s : string)
  | VList (l : list PyVal)
  | VDict (d : list (string * PyVal)).

(** The exceptions of the program; each is a subclass of [Exception]. *)
Inductive Exn : Type :=
  | OSError
  | FileNotFoundError
  | CalledProcessError (cmd : list string) (returncode : Z)
  | ValueError
  | TypeError
  | IndexError
  | AttributeError
  | OverflowError
  | UnidentifiedImageError
  | JSONDecodeError
  | RequestException.

Inductive Result (A : Type) : Type :=
  | Ok (a : A)
  | Raise (e : Exn).
Arguments Ok {A} a.
Arguments Raise {A} e.

Definition is_ok {A} (r : Result A) : bool :=
  match r with Ok _ => true | Raise _ => false end.

(** *** Strings *)

(** [str.isspace], which [str.strip] and [str.split] use: tab to carriage
    return, the four separators, the space, next-line (U+0085) and the
    no-break space (U+00A0). *)
Definition is_space (c : ascii) : bool :=
  let n := nat_of_ascii c in
  ((Nat.leb 9 n && Nat.leb n 13) || (Nat.leb 28 n && Nat.leb n 32)
   || Nat.eqb n 133 || Nat.eqb n 160)%bool.

(** The whitespace that [int()] accepts around a numeral: the C whitespace
    (tab to carriage return and the space; not the four separators), and
    the whitespace above U+007F, which it reads as spaces. *)
Definition is_int_space (c : ascii) : bool :=
  let n := nat_of_ascii c in
  ((Nat.leb 9 n && Nat.leb n 13) || Nat.eqb n 32
   || Nat.eqb n 133 || Nat.eqb n 160)%bool.

Definition is_digit (c : ascii) : bool :=
  let n := nat_of_ascii c in (Nat.leb 48 n && Nat.leb n 57)%bool.

Definition digit_val (c : ascii) : Z := Z.of_nat (nat_of_ascii c) - 48.

(** The lower-case form of a character: A to Z, and the capital letters
    U+00C0 to U+00DE except the multiplication sign U+00D7. *)
Definition lower_ascii (c : ascii) : ascii :=
  let n := nat_of_ascii c in
  if ((Nat.leb 65 n && Nat.leb n 90)
      || (Nat.leb 192 n && Nat.leb n 222 && negb (Nat.eqb n 215)))%bool
  then ascii_of_nat (n + 32) else c.

(** [str.lower()]. *)
Fixpoint lower (s : string) : string :=
  match s with
  | EmptyString => EmptyString
  | String c r => String (lower_ascii c) (lower r)
  end.

Fixpoint lstrip (s : string) : string :=
  match s with
  | String c r => if is_space c then lstrip r else s
  | EmptyString => EmptyString
  end.

Fixpoint rev_string (s acc : string) : string :=
  match s with
  | EmptyString => acc
  | String c r => rev_string r (String c acc)
  end.

Definition rstrip (s : string) : string :=
  rev_string (lstrip (rev_string s "")) "".

(** [str.strip()]. *)
Definition strip (s : string) : string := rstrip (lstrip s).

Fixpoint int_lstrip (s : string) : string :=
  match s with
  | String c r => if is_int_space c then int_lstrip r else s
  | EmptyString => EmptyString
  end.

(** The numeral that [int()] reads, without the whitespace around it. *)
Definition int_strip (s : string) : string :=
  rev_string (int_lstrip (rev_string (int_lstrip s) "")) "".

(** [s.split(sep)] for a one-character separator: every occurrence splits,
    so the result is never empty. *)
Fixpoint split_on (sep : ascii) (s : string) : list string :=
  match s with
  | EmptyString => [EmptyString]
  | String c r =>
      if Ascii.eqb c sep then EmptyString :: split_on sep r
      else match split_on sep r with
           | w :: ws => String c w :: ws
           | [] => [String c EmptyString]
           end
  end.

(** [s.split()]: split on runs of whitespace, dropping empty words.
    [cur] is the word being read, reversed. *)
Fixpoint split_ws_aux (s cur : string) : list string :=
  match s with
  | EmptyString =>
      match cur with EmptyString => [] | _ => [rev_string cur ""] end
  | String c r =>
      if is_space c
      then match cur with
           | EmptyString => split_ws_aux r ""
           | _ => rev_string cur "" :: split_ws_aux r ""
           end
      else split_ws_aux r (String c cur)
  end.

Definition split_ws (s : string) : list string := split_ws_aux s "".

(** [s.split(None, maxsplit)]: at most [maxsplit] splits on whitespace runs;
    the last field is the rest of the line, leading whitespace removed and
    trailing whitespace kept. *)
Fixpoint split_ws_max_aux (maxsplit : nat) (s cur : string) : list string :=
  match s with
  | EmptyString =>
      match cur with EmptyString => [] | _ => [rev_string cur ""] end
  | String c r =>
      match cur with
      | EmptyString =>
          if is_space c then split_ws_max_aux maxsplit r ""
          else match maxsplit with
               | O => [s]
               | S _ => split_ws_max_aux maxsplit r (String c "")
               end
      | _ =>
          if is_space c
          then rev_string cur "" :: split_ws_max_aux (Nat.pred maxsplit) r ""
          else split_ws_max_aux maxsplit r (String c cur)
      end
  end.

Definition split_ws_max (maxsplit : nat) (s : string) : list string :=
  split_ws_max_aux maxsplit s "".

(** *** Integers *)

(** Digits with single underscores between digits, as [int()] accepts. *)
Fixpoint int_digits (s : string) (acc : Z) (after_digit : bool) : option Z :=
  match s with
  | EmptyString => if after_digit then Some acc else None
  | String c r =>
      if is_digit c then int_digits r (10 * acc + digit_val c) true
      else if (Ascii.eqb c "_" && after_digit)%bool then int_digits r acc false
      else None
  end.

(** [int(s)] for text: optional surrounding whitespace, an optional sign,
    decimal digits. *)
Definition int_of_str (s : string) : Result Z :=
  let body := int_strip s in
  let parsed :=
    match body with
    | String "-" r => Z.opp <$> int_digits r 0 false
    | String "+" r => int_digits r 0 false
    | _ => int_digits body 0 false
    end in
  match parsed with Some z => Ok z | None => Raise ValueError end.

(** [int(f)] truncates towards zero; infinities and NaN raise. *)
Definition int_of_float (f : PyFloat) : Result Z :=
  match f with
  | FFinite q => Ok (Z.quot (Qnum q) (Zpos (Qden q)))
  | FInf _ => Raise OverflowError
  | FNaN => Raise ValueError
  end.

(** [int(v)]. *)
Definition int (v : PyVal) : Result Z :=
  match v with
  | VInt z => Ok z
  | VBool b => Ok (if b then 1 else 0)
  | VFloat f => int_of_float f
  | VStr s => int_of_str s
  | VNone | VList _ | VDict _ => Raise TypeError
  end.

(** [str(z)] for an integer: its decimal numeral. *)
Definition str_of_int (z : Z) : string :=
  DecimalString.NilZero.string_of_int (Z.to_int z).

(** [str(v)]. The text of a float, a list or a dict is left to [repr], the
    interpreter's own printer. *)
Definition str (repr : PyVal -> string) (v : PyVal) : string :=
  match v with
  | VNone => "None"
  | VBool true => "True"
  | VBool false => "False"
  | VInt z => str_of_int z
  | VStr s => s
  | VFloat _ | VList _ | VDict _ => repr v
  end.

(** [l[i]] for a constant index. *)
Definition index {A} (l : list A) (i : nat) : Result A :=
  match nth_error l i with Some a => Ok a | None => Raise IndexError end.

(** *** Dictionaries *)

Fixpoint assoc (k : string) (d : list (string * PyVal)) : option PyVal :=
  match d with
  | [] => None
  | (k', v) :: r => if String.eqb k k' then Some v else assoc k r
  end.

(** [data.get(key, default)]: only a dict has [get]. *)
Definition get (data : PyVal) (key : string) (dflt : PyVal) : Result PyVal :=
  match data with
  | VDict d => Ok (default dflt (assoc key d))
  | _ => Raise AttributeError
  end.

End Py.


Export Py.

(** Python [bytes]. *)
Abbreviation bytes := (list Init.Byte.byte).

(** ** The world outside the program *)

(** What [subprocess.run] returns once the child has exited. *)
Record CompletedProcess : Type := {
  returncode : Z;
  stdout : string;
}.

(** A decoded picture, as Pillow's [Image]: [mode] is Pillow's mode name. *)
Record Image : Type := {
  mode : string;
  size : Z * Z;
  data : bytes;
}.

(** A response as the handler writes it to [wfile]. *)
Inductive Body : Type :=
  | NoBody
  | JsonBody (v : PyVal)
  | ErrorBody (e : Exn)                 (* {'error': str(e)} *)
  | ImageBody (image_data : bytes).

Record Response : Type := {
  status : Z;
  headers : list (string * string);
  body : Body;
}.

(** One [logger.error] record: the message prefix and the exception. *)
Record LogRecord : Type := {
  message : string;
  cause : Exn;
}.

Record World : Type := {
  XDG_SESSION_TYPE : option string;     (* os.environ *)
  fs : gmap string bytes;         (* files by path *)
  spawned : list (list string);         (* argv of each subprocess.run, oldest first *)
  log : list LogRecord;                 (* logger.error records, oldest first *)
  wfile : list Response;                (* responses written, oldest first *)
}.

(** The machine the program runs on. [spawn argv w] is what running [argv]
    does in world [w]: [None] when the executable cannot be started, else how
    it exits and the files it leaves. [mkstemp suffix w] is the unique name
    that [tempfile] picks, [None] when no file can be created. *)
Record Host : Type := {
  spawn : list string -> World -> option (CompletedProcess * gmap string bytes);
  mkstemp : string -> World -> option string;
  can_bind : string -> Z -> bool;
}.

(** A request as [BaseHTTPRequestHandler] hands it over. [target_parses]
    tells whether [urlparse(self.path)] returns (it raises ValueError on a
    target such as "http://["); when it does, [path] and [query] are
    [parsed.path] and [parse_qs(parsed.query)]. [content_length] is the
    Content-Length header when there is one. *)
Record Request : Type := {
  command : string;
  target_parses : bool;
  path : string;
  query : list (string * list string);
  content_length : option string;
  rfile : bytes;
}.

(** The libraries the program calls: Pillow's codecs, [json], [base64] and
    the interpreter's [repr]. A codec answers [None] where Pillow raises. *)
Record Libs : Type := {
  png_decode : bytes -> option Image;
  convert_data : string -> Image -> option bytes;
  jpeg_encode : Image -> Z -> option bytes;
  png_encode : Image -> option bytes;
  json_loads : bytes -> option PyVal;
  b64encode : bytes -> string;
  repr : PyVal -> string;
}.

(** The bands of a Pillow mode (Pillow's [Image.getbands]). *)
Definition getbands (m : string) : list string :=
  if String.eqb m "1" then ["1"]
  else if String.eqb m "L" then ["L"]
  else if String.eqb m "P" then ["P"]
  else if String.eqb m "I" then ["I"]
  else if String.eqb m "F" then ["F"]
  else if String.eqb m "LA" then ["L"; "A"]
  else if String.eqb m "La" then ["L"; "a"]
  else if String.eqb m "PA" then ["P"; "A"]
  else if String.eqb m "RGB" then ["R"; "G"; "B"]
  else if String.eqb m "YCbCr" then ["Y"; "Cb"; "Cr"]
  else if String.eqb m "LAB" then ["L"; "A"; "B"]
  else if String.eqb m "HSV" then ["H"; "S"; "V"]
  else if String.eqb m "RGBA" then ["R"; "G"; "B"; "A"]
  else if String.eqb m "RGBa" then ["R"; "G"; "B"; "a"]
  else if String.eqb m "RGBX" then ["R"; "G"; "B"; "X"]
  else if String.eqb m "CMYK" then ["C"; "M"; "Y"; "K"]
  else [].

(** The modes that carry an alpha band. *)
Definition has_alpha (m : string) : bool :=
  existsb (String.eqb m) ["LA"; "La"; "PA"; "RGBA"; "RGBa"].

(** ** State and exceptions *)

Definition M (A : Type) : Type := World -> Result A * World.

#[global] Instance M_ret : MRet M := fun A a w => (Ok a, w).

#[global] Instance M_bind : MBind M := fun A B f m w =>
  match m w with
  | (Ok a, w') => f a w'
  | (Raise e, w') => (Raise e, w')
  end.

Definition raise {A} (e : Exn) : M A := fun w => (Raise e, w).

Definition lift {A} (r : Result A) : M A := fun w => (r, w).

(** [try: body except Exception as e: handler e]. *)
Definition try_except {A} (body : M A) (handler : Exn -> M A) : M A := fun w =>
  match body w with
  | (Ok a, w') => (Ok a, w')
  | (Raise e, w') => handler e w'
  end.

Definition logger_error (msg : string) (e : Exn) : M unit := fun w =>
  (Ok tt, {| XDG_SESSION_TYPE := XDG_SESSION_TYPE w; fs := fs w;
             spawned := spawned w;
             log := log w ++ [{| message := msg; cause := e |}];
             wfile := wfile w |}).

Definition environ_get_session : M (option string) := fun w =>
  (Ok (XDG_SESSION_TYPE w), w).

Definition set_fs (f : gmap string bytes) (w : World) : World :=
  {| XDG_SESSION_TYPE := XDG_SESSION_TYPE w; fs := f; spawned := spawned w;
     log := log w; wfile := wfile w |}.

Definition record_spawn (argv : list string) (w : World) : World :=
  {| XDG_SESSION_TYPE := XDG_SESSION_TYPE w; fs := fs w;
     spawned := spawned w ++ [argv]; log := log w; wfile := wfile w |}.

Definition write_response (r : Response) : M unit := fun w =>
  (Ok tt, {| XDG_SESSION_TYPE := XDG_SESSION_TYPE w; fs := fs w;
             spawned := spawned w; log := log w; wfile := wfile w ++ [r] |}).

(** [os.unlink(path)]. *)
Definition os_unlink (path : string) : M unit := fun w =>
  match fs w !! path with
  | Some _ => (Ok tt, set_fs (delete path (fs w)) w)
  | None => (Raise FileNotFoundError, w)
  end.

Section Bridge.

Context (host : Host) (libs : Libs).

(** ** Library calls *)

(** [subprocess.run(argv, capture_output=..., check=check)]: the call is
    recorded, the child runs, and with [check] a non-zero exit raises. *)
Definition subprocess_run (argv : list string) (check : bool) : M CompletedProcess :=
  fun w =>
    let w1 := record_spawn argv w in
    match spawn host argv w with
    | None => (Raise FileNotFoundError, w1)
    | Some (p, files) =>
        let w2 := set_fs files w1 in
        if (check && negb (Z.eqb (returncode p) 0))%bool
        then (Raise (CalledProcessError argv (returncode p)), w2)
        else (Ok p, w2)
    end.

(** [with tempfile.NamedTemporaryFile(suffix=..., delete=False) as f:
    tmp_path = f.name]: an empty file of a new name, kept after the block. *)
Definition NamedTemporaryFile (suffix : string) : M string := fun w =>
  match mkstemp host suffix w with
  | Some path => (Ok path, set_fs (<[path := []]> (fs w)) w)
  | None => (Raise OSError, w)
  end.

(** [Image.open(path)]. *)
Definition Image_open (path : string) : M Image := fun w =>
  match fs w !! path with
  | None => (Raise FileNotFoundError, w)
  | Some content =>
      match png_decode libs content with
      | Some img => (Ok img, w)
      | None => (Raise UnidentifiedImageError, w)
      end
  end.

(** [img.convert(target)]: the result has mode [target]. *)
Definition Image_convert (target : string) (img : Image) : M Image :=
  match convert_data libs target img with
  | Some d => mret {| mode := target; size := size img; data := d |}
  | None => raise OSError
  end.

(** The modes Pillow's JPEG writer accepts (its [RAWMODE] table); for any
    other mode [save] raises "cannot write mode ... as JPEG". *)
Definition JPEG_RAWMODE : list string :=
  ["1"; "L"; "RGB"; "RGBX"; "CMYK"; "YCbCr"].

(** [img.save(output, format='JPEG', quality=quality)], giving the bytes
    that [output.getvalue()] then returns. *)
Definition Image_save_JPEG (img : Image) (quality : Z) : M bytes :=
  if existsb (String.eqb (mode img)) JPEG_RAWMODE
  then match jpeg_encode libs img quality with
       | Some b => mret b
       | None => raise OSError
       end
  else raise OSError.

(** [img.save(output, format='PNG')]. *)
Definition Image_save_PNG (img : Image) : M bytes :=
  match png_encode libs img with
  | Some b => mret b
  | None => raise OSError
  end.

(** An element of an argv must be text without a NUL character. *)
Definition argv_str (v : PyVal) : M string :=
  match v with
  | VStr s =>
      if existsb (Ascii.eqb zero) (list_ascii_of_string s)
      then raise ValueError else mret s
  | _ => raise TypeError
  end.

(** ** ScreenController *)

(** The capture backend: grim, then gnome-screenshot, under Wayland; scrot
    otherwise. *)
Definition run_capture_backend (tmp_path : string) : M unit :=
  session ← environ_get_session;
  if bool_decide (session = Some "wayland") then
    result ← subprocess_run ["grim"; tmp_path] false;
    if negb (Z.eqb (returncode result) 0)
    then subprocess_run ["gnome-screenshot"; "-f"; tmp_path] false ;; mret tt
    else mret tt
  else
    subprocess_run ["scrot"; "-o"; tmp_path] true ;; mret tt.

(** The re-encoding step of [take_screenshot]. *)
Definition encode_image (format : string) (quality : Z) (img : Image) : M bytes :=
  if String.eqb (lower format) "jpeg" then
    img ← (if String.eqb (mode img) "RGBA" then Image_convert "RGB" img
           else mret img);
    Image_save_JPEG img quality
  else
    Image_save_PNG img.

Definition take_screenshot (format : string) (quality : Z) : M bytes :=
  try_except
    (tmp_path ← NamedTemporaryFile ".png";
     run_capture_backend tmp_path ;;
     img ← Image_open tmp_path;
     output ← encode_image format quality img;
     os_unlink tmp_path ;;
     mret output)
    (fun e => logger_error "Screenshot failed" e ;; raise e).

(** The argv of a pointer warp: [str(int(x))], [str(int(y))]. *)
Definition mousemove_argv (x y : PyVal) : M (list string) :=
  xi ← lift (int x);
  yi ← lift (int y);
  mret ["xdotool"; "mousemove"; str_of_int xi; str_of_int yi].

Definition warp (x y : PyVal) : M unit :=
  argv ← mousemove_argv x y;
  subprocess_run argv true ;; mret tt.

(** The shape of every input operation: [True] when the body completes,
    [False], with a log record, when it raises. *)
Definition attempt (msg : string) (body : M unit) : M bool :=
  try_except (body ;; mret true)
             (fun e => logger_error msg e ;; mret false).

Definition move_mouse (x y : PyVal) : M bool :=
  attempt "Mouse move failed" (warp x y).

(** [{'left': '1', 'right': '3', 'middle': '2'}.get(button, '1')]: a list
    or a dict is not hashable and raises. *)
Definition button_index (button : PyVal) : Result string :=
  match button with
  | VStr s =>
      Ok (if String.eqb s "left" then "1"
          else if String.eqb s "right" then "3"
          else if String.eqb s "middle" then "2"
          else "1")
  | VList _ | VDict _ => Raise TypeError
  | _ => Ok "1"
  end.

Definition click (x y button : PyVal) : M bool :=
  attempt "Click failed"
    (btn ← lift (button_index button);
     warp x y ;;
     subprocess_run ["xdotool"; "click"; btn] true ;; mret tt).

Definition double_click (x y : PyVal) : M bool :=
  attempt "Double-click failed"
    (warp x y ;;
     subprocess_run ["xdotool"; "click"; "--repeat"; "2"; "1"] true ;; mret tt).

Definition is_str (v : PyVal) (s : string) : bool :=
  match v with VStr t => String.eqb t s | _ => false end.

Definition scroll (direction amount : PyVal) : M bool :=
  attempt "Scroll failed"
    (let btn := if is_str direction "down" then "5" else "4" in
     count ← argv_str (VStr (str (repr libs) amount));
     subprocess_run ["xdotool"; "click"; "--repeat"; count; btn] true ;;
     mret tt).

Definition drag (start_x start_y end_x end_y : PyVal) : M bool :=
  attempt "Drag failed"
    (warp start_x start_y ;;
     subprocess_run ["xdotool"; "mousedown"; "1"] true ;;
     warp end_x end_y ;;
     subprocess_run ["xdotool"; "mouseup"; "1"] true ;; mret tt).

(** [result.stdout] is "x:123 y:456 screen:0 window:12345". *)
Definition parse_mouse_location (out : string) : Result (Z * Z) :=
  let parts := split_ws (strip out) in
  match index parts 0 with
  | Raise e => Raise e
  | Ok p0 =>
      match index (split_on ":" p0) 1 with
      | Raise e => Raise e
      | Ok xs =>
          match int_of_str xs with
          | Raise e => Raise e
          | Ok x =>
              match index parts 1 with
              | Raise e => Raise e
              | Ok p1 =>
                  match index (split_on ":" p1) 1 with
                  | Raise e => Raise e
                  | Ok ys =>
                      match int_of_str ys with
                      | Raise e => Raise e
                      | Ok y => Ok (x, y)
                      end
                  end
              end
          end
      end
  end.

Definition position_dict (x y : Z) : list (string * PyVal) :=
  [("x", VInt x); ("y", VInt y)].

(** The body of the [try] in [get_mouse_position]. *)
Definition query_mouse_location : M (list (string * PyVal)) :=
  result ← subprocess_run ["xdotool"; "getmouselocation"] true;
  '(x, y) ← lift (parse_mouse_location (stdout result));
  mret (position_dict x y).

Definition get_mouse_position : M (list (string * PyVal)) :=
  try_except query_mouse_location
    (fun e => logger_error "Get mouse position failed" e ;;
              mret (position_dict 0 0)).

Definition type_text (text : PyVal) : M bool :=
  attempt "Type text failed"
    (t ← argv_str text;
     subprocess_run ["xdotool"; "type"; "--clearmodifiers"; t] true ;; mret tt).

Definition key_map : list (string * string) :=
  [("enter", "Return"); ("return", "Return"); ("tab", "Tab");
   ("escape", "Escape"); ("esc", "Escape"); ("backspace", "BackSpace");
   ("delete", "Delete"); ("space", "space"); ("up", "Up"); ("down", "Down");
   ("left", "Left"); ("right", "Right"); ("home", "Home"); ("end", "End");
   ("pageup", "Page_Up"); ("pagedown", "Page_Down")].

Fixpoint key_map_get (k : string) (m : list (string * string)) (dflt : string) : string :=
  match m with
  | [] => dflt
  | (k', v) :: r => if String.eqb k k' then v else key_map_get k r dflt
  end.

Definition press_key (key : PyVal) : M bool :=
  attempt "Press key failed"
    (k ← (match key with VStr s => mret s | _ => raise AttributeError end);
     let xdo_key := key_map_get (lower k) key_map k in
     t ← argv_str (VStr xdo_key);
     subprocess_run ["xdotool"; "key"; t] true ;; mret tt).

Definition window_of_line (line : string) : list PyVal :=
  match line with
  | EmptyString => []
  | _ =>
      match split_ws_max 4 line with
      | [id; desktop; pid; machine; title] =>
          [VDict [("id", VStr id); ("desktop", VStr desktop); ("pid", VStr pid);
                  ("machine", VStr machine); ("title", VStr title)]]
      | _ => []
      end
  end.

Definition get_windows : M (list PyVal) :=
  try_except
    (result ← subprocess_run ["wmctrl"; "-l"; "-p"] true;
     mret (concat (map window_of_line (split_on "010" (strip (stdout result))))))
    (fun e => logger_error "Get windows failed" e ;; mret []).

Definition focus_window (window_id : PyVal) : M bool :=
  attempt "Focus window failed"
    (i ← argv_str window_id;
     subprocess_run ["wmctrl"; "-i"; "-a"; i] true ;; mret tt).

(** ** GUIBridgeHandler *)

Definition json_headers : list (string * string) :=
  [("Content-Type", "application/json"); ("Access-Control-Allow-Origin", "*")].

Definition _send_json (data : PyVal) (status : Z) : M unit :=
  write_response {| status := status; headers := json_headers; body := JsonBody data |}.

(** [self._send_json({'error': str(e)}, status)]. *)
Definition _send_error_json (e : Exn) (status : Z) : M unit :=
  write_response {| status := status; headers := json_headers; body := ErrorBody e |}.

Definition not_found : PyVal := VDict [("error", VStr "Not found")].

Definition _send_image (image_data : bytes) (content_type : string) : M unit :=
  write_response {| status := 200;
                    headers := [("Content-Type", content_type);
                                ("Access-Control-Allow-Origin", "*")];
                    body := ImageBody image_data |}.

(** [self.rfile.read(n)] on the buffered reader: [n] bytes, everything for
    -1, and ValueError for a length below -1. *)
Definition rfile_read (req : Request) (n : Z) : Result bytes :=
  if Z.ltb n (-1) then Raise ValueError
  else if Z.eqb n (-1) then Ok (rfile req)
  else Ok (firstn (Z.to_nat n) (rfile req)).

Definition _read_json (req : Request) : M PyVal :=
  n ← lift (match content_length req with
            | Some h => int_of_str h
            | None => Ok 0
            end);
  if negb (Z.eqb n 0) then
    content ← lift (rfile_read req n);
    match json_loads libs content with
    | Some v => mret v
    | None => raise JSONDecodeError
    end
  else mret (VDict []).

Definition do_OPTIONS : M unit :=
  write_response {| status := 200;
                    headers := [("Access-Control-Allow-Origin", "*");
                                ("Access-Control-Allow-Methods", "GET, POST, OPTIONS");
                                ("Access-Control-Allow-Headers", "Content-Type")];
                    body := NoBody |}.

Fixpoint params_get (k : string) (params : list (string * list string)) : option (list string) :=
  match params with
  | [] => None
  | (k', v) :: r => if String.eqb k k' then Some v else params_get k r
  end.

(** [params.get(key, [dflt])[0]] where the default is text. *)
Definition param (params : list (string * list string)) (key dflt : string) : Result string :=
  index (default [dflt] (params_get key params)) 0.

(** [int(params.get('quality', [80])[0])]. *)
Definition quality_param (params : list (string * list string)) : Result Z :=
  match params_get "quality" params with
  | None => Ok 80
  | Some l => match index l 0 with Ok s => int_of_str s | Raise e => Raise e end
  end.

Definition success_dict (success : bool) : PyVal :=
  VDict [("success", VBool success)].

(** [do_GET] from its [try] on, for a target that [urlparse] and
    [parse_qs] have taken apart; [do_GET_method] below is the whole method. *)
Definition do_GET (req : Request) : M unit :=
  let params := query req in
  try_except
    (if String.eqb (path req) "/health" then
       _send_json (VDict [("status", VStr "ok");
                          ("service", VStr "screencontrol-gui-bridge")]) 200
     else if String.eqb (path req) "/screenshot" then
       fmt ← lift (param params "format" "jpeg");
       quality ← lift (quality_param params);
       rb ← lift (param params "return_base64" "false");
       let return_base64 := String.eqb (lower rb) "true" in
       image_data ← take_screenshot fmt quality;
       if return_base64 then
         _send_json (VDict [("success", VBool true); ("format", VStr fmt);
                            ("data", VStr (b64encode libs image_data))]) 200
       else
         _send_image image_data
           (if String.eqb fmt "jpeg" then "image/jpeg" else "image/png")
     else if String.eqb (path req) "/mouse/position" then
       pos ← get_mouse_position;
       _send_json (VDict (("success", VBool true) :: pos)) 200
     else if String.eqb (path req) "/ui/windows" then
       windows ← get_windows;
       _send_json (VDict [("success", VBool true); ("windows", VList windows)]) 200
     else
       _send_json not_found 404)
    (fun e => logger_error ("GET " +:+ path req +:+ " error") e ;;
              _send_error_json e 500).

(** [do_POST] from its [try] on; [do_POST_method] below is the whole
    method. *)
Definition do_POST (req : Request) : M unit :=
  try_except
    (data ← _read_json req;
     if String.eqb (path req) "/click" then
       x ← lift (get data "x" (VInt 0));
       y ← lift (get data "y" (VInt 0));
       button ← lift (get data "button" (VStr "left"));
       success ← click x y button;
       _send_json (success_dict success) 200
     else if String.eqb (path req) "/double_click" then
       x ← lift (get data "x" (VInt 0));
       y ← lift (get data "y" (VInt 0));
       success ← double_click x y;
       _send_json (success_dict success) 200
     else if String.eqb (path req) "/mouse/move" then
       x ← lift (get data "x" (VInt 0));
       y ← lift (get data "y" (VInt 0));
       success ← move_mouse x y;
       _send_json (success_dict success) 200
     else if String.eqb (path req) "/mouse/scroll" then
       direction ← lift (get data "direction" (VStr "down"));
       amount ← lift (get data "amount" (VInt 3));
       success ← scroll direction amount;
       _send_json (success_dict success) 200
     else if String.eqb (path req) "/mouse/drag" then
       sx ← lift (get data "startX" (VInt 0));
       sy ← lift (get data "startY" (VInt 0));
       ex ← lift (get data "endX" (VInt 0));
       ey ← lift (get data "endY" (VInt 0));
       success ← drag sx sy ex ey;
       _send_json (success_dict success) 200
     else if String.eqb (path req) "/keyboard/type" then
       text ← lift (get data "text" (VStr ""));
       success ← type_text text;
       _send_json (success_dict success) 200
     else if String.eqb (path req) "/keyboard/key" then
       key ← lift (get data "key" (VStr ""));
       success ← press_key key;
       _send_json (success_dict success) 200
     else if String.eqb (path req) "/ui/focus" then
       window_id ← lift (get data "windowId" (VStr ""));
       success ← focus_window window_id;
       _send_json (success_dict success) 200
     else
       _send_json not_found 404)
    (fun e => logger_error ("POST " +:+ path req +:+ " error") e ;;
              _send_error_json e 500).

(** The whole of [do_GET]: [urlparse(self.path)] and [parse_qs] come before
    the [try], so what they raise leaves the method. *)
Definition do_GET_method (req : Request) : M unit :=
  if target_parses req then do_GET req else raise ValueError.

(** The whole of [do_POST], likewise. *)
Definition do_POST_method (req : Request) : M unit :=
  if target_parses req then do_POST req else raise ValueError.

(** What [BaseHTTPRequestHandler] does with one request: it calls
    [do_<command>], and answers 501 when the handler has no such method.
    An exception that leaves the method is reported by the server on its
    error stream; the request is then dropped with what was written. *)
Definition handle_one_request (req : Request) : World -> World := fun w =>
  snd ((if String.eqb (command req) "GET" then do_GET_method req
        else if String.eqb (command req) "POST" then do_POST_method req
        else if String.eqb (command req) "OPTIONS" then do_OPTIONS
        else write_response {| status := 501; headers := []; body := NoBody |}) w).

(** ** GUIBridgeServer *)

(** A thread of the process: the main thread is 0. *)
Definition MainThread : nat := 0%nat.

Record GUIBridgeServer : Type := {
  port : Z;
  server : option (string * Z);         (* the HTTPServer and its address *)
  thread : option nat;                  (* the thread running serve_forever *)
}.

Definition GUI_BRIDGE_PORT : Z := 3460.
Definition SERVICE_PORT : Z := 3459.

Definition GUIBridgeServer_init : GUIBridgeServer :=
  {| port := GUI_BRIDGE_PORT; server := None; thread := None |}.

(** [start]: one [HTTPServer] on the loopback address and one daemon thread,
    the first thread the program creates, whose target is [serve_forever].
    A failure to bind is caught and reported as [False]. *)
Definition start (self : GUIBridgeServer) : bool * GUIBridgeServer :=
  if can_bind host "127.0.0.1" (port self)
  then (true, {| port := port self;
                 server := Some ("127.0.0.1", port self);
                 thread := Some (S MainThread) |})
  else (false, self).

(** What the serving thread does, as seen from outside. *)
Inductive Event : Type :=
  | Begin (worker : nat) (request : nat)
  | Finish (worker : nat) (request : nat).

(** [HTTPServer] is [socketserver.TCPServer] with no threading mix-in: its
    [process_request] runs the handler to completion in the thread that
    called it. [n] numbers the request. *)
Definition process_request (worker n : nat) (req : Request) (w : World)
  : list Event * World :=
  ([Begin worker n; Finish worker n], handle_one_request req w).

(** [serve_forever] in thread [worker], over the requests in the order the
    listening socket delivers them, numbered from [n]. *)
Fixpoint serve_forever (worker n : nat) (reqs : list Request) (w : World)
  : list Event * World :=
  match reqs with
  | [] => ([], w)
  | req :: rest =>
      let '(ev, w1) := process_request worker n req w in
      let '(evs, w2) := serve_forever worker (S n) rest w1 in
      (ev ++ evs, w2)
  end.

(** The server from [start] onwards: nothing is served unless it started. *)
Definition serve (self : GUIBridgeServer) (reqs : list Request) (w : World)
  : list Event * World :=
  match start self with
  | (true, srv) =>
      match thread srv with
      | Some t => serve_forever t 0 reqs w
      | None => ([], w)
      end
  | (false, _) => ([], w)
  end.

End Bridge.

(** ** ScreenControlTray: the liveness poll *)

(** A call queued for the GTK main loop with [GLib.idle_add]. *)
Inductive UICall : Type :=
  | set_label (text : string)
  | set_icon_full (icon description : string).

Record ScreenControlTray : Type := {
  connected : bool;
  status_item : bool;                   (* is there a status menu item *)
  indicator : bool;                     (* is there an AppIndicator *)
  idle : list UICall;                   (* queued UI calls, oldest first *)
}.

Definition ICON_FALLBACK : string := "network-transmit-receive".

Definition set_connected (c : bool) (calls : list UICall) (t : ScreenControlTray)
  : ScreenControlTray :=
  {| connected := c; status_item := status_item t; indicator := indicator t;
     idle := idle t ++ calls |}.

(** [update_status]; [reply] is what [requests.get] did: the status code of
    the response, or the exception it raised. The bare [except:] catches
    every exception, and the function returns [True] to keep the timer. *)
Definition update_status (reply : Result Z) (self : ScreenControlTray)
  : Result bool * ScreenControlTray :=
  let self' :=
    match reply with
    | Ok status_code =>
        if Z.eqb status_code 200 then
          set_connected true
            ((if status_item self then [set_label "Status: Connected"] else []) ++
             (if indicator self then [set_icon_full ICON_FALLBACK "Connected"] else []))
            self
        else
          set_connected false
            (if status_item self then [set_label "Status: Disconnected"] else [])
            self
    | Raise _ =>
        set_connected false
          (if status_item self then [set_label "Status: Service not running"] else [])
          self
    end in
  (Ok true, self').

(** The timer: [update_status] once per period for as long as it returns
    [True]; one reply per period. *)
Fixpoint poll_loop (replies : list (Result Z)) (self : ScreenControlTray)
  : Result ScreenControlTray :=
  match replies with
  | [] => Ok self
  | reply :: rest =>
      match update_status reply self with
      | (Ok true, self') => poll_loop rest self'
      | (Ok false, self') => Ok self'
      | (Raise e, _) => Raise e
      end
  end.

(** ** SettingsDialog: the autostart entry *)

(** [os.path.join(os.path.expanduser('~/.config/autostart'),
    'screencontrol-tray.desktop')]; [home] is what [~] expands to. *)
Definition autostart_file (home : string) : string :=
  home +:+ "/.config/autostart" +:+ "/" +:+ "screencontrol-tray.desktop".

Definition desktop_entry : string :=
"[Desktop Entry]
Type=Application
Name=ScreenControl Tray
Comment=ScreenControl system tray application
Exec=/opt/screencontrol/screencontrol-tray
Icon=network-transmit-receive
Terminal=false
Categories=Utility;
StartupNotify=false
X-GNOME-Autostart-enabled=true
".

(** [check_autostart]: [os.path.exists] of the entry. *)
Definition check_autostart (home : string) : M bool := fun w =>
  (Ok (bool_decide (is_Some (fs w !! autostart_file home))), w).

(** [os.remove(path)]: [can_remove path w] tells whether the entry at
    [path] can be removed (it is a file, in a directory that can be written);
    when it cannot, or nothing is there, [os.remove] raises. *)
Definition os_remove (can_remove : string -> World -> bool) (path : string)
  : M unit := fun w =>
  match fs w !! path with
  | Some _ =>
      if can_remove path w then (Ok tt, set_fs (delete path (fs w)) w)
      else (Raise OSError, w)
  | None => (Raise FileNotFoundError, w)
  end.

(** [set_autostart]. [can_write path w] tells whether the directory can be
    made and the file opened for writing; when it cannot, [os.makedirs] or
    [open] raises. Disabling removes the entry only if it is there. *)
Definition set_autostart (can_write can_remove : string -> World -> bool)
    (home : string) (enabled : bool) : M unit :=
  if enabled then
    (fun w =>
       if can_write (autostart_file home) w
       then (Ok tt, set_fs (<[autostart_file home :=
                                String.list_byte_of_string desktop_entry]> (fs w)) w)
       else (Raise OSError, w)) : M unit
  else
    (present ← check_autostart home;
     if (present : bool) then os_remove can_remove (autostart_file home)
     else mret tt) : M unit.

(** ** Concrete machines and libraries, for running the model *)

Module Fixture.

Import Init.Byte.

(** Stand-ins for PNG files: the first byte tells the decoder the mode. *)
Definition png_RGBA : bytes := [x01; x10; x20; x30; xff].
Definition png_LA : bytes := [x02; x10; xff].
Definition png_RGB : bytes := [x03; x10; x20; x30].
Definition not_an_image : bytes := [x00].
Definition empty_object : bytes := [x7b; x7d].      (* the text of {} *)

Definition decode (content : bytes) : option Image :=
  match content with
  | x01 :: d => Some {| mode := "RGBA"; size := (1, 1); data := d |}
  | x02 :: d => Some {| mode := "LA"; size := (1, 1); data := d |}
  | x03 :: d => Some {| mode := "RGB"; size := (1, 1); data := d |}
  | _ => None
  end.

Definition loads (content : bytes) : option PyVal :=
  match content with
  | [x7b; x7d] => Some (VDict [])
  | _ => None
  end.

(** Codecs that keep the pixel data as it is; the JPEG stand-in appends the
    low byte of the quality. *)
Definition libs : Libs :=
  {| png_decode := decode;
     convert_data := fun _ img => Some (data img);
     jpeg_encode := fun img q =>
       Some (data img ++ [default x00 (Byte.of_nat (Z.to_nat (q mod 256)))]);
     png_encode := fun img => Some (data img);
     json_loads := loads;
     b64encode := fun _ => "";
     repr := fun _ => "" |}.

Definition tmp_path : string := "/tmp/tmpq1w2e3.png".

Definition exited (code : Z) (out : string) (files : gmap string bytes)
  : option (CompletedProcess * gmap string bytes) :=
  Some ({| returncode := code; stdout := out |}, files).

(** A machine where grim and scrot exit with the given codes, a capture tool
    that exits 0 writes [shot] to the file it is given, and xdotool exits
    with [xdotool_code] printing [location]. *)
Definition machine (grim_code scrot_code xdotool_code : Z) (shot : bytes)
    (location : string) : Host :=
  {| spawn := fun argv w =>
       match argv with
       | ["grim"; p] =>
           exited grim_code ""
             (if Z.eqb grim_code 0 then <[p := shot]> (fs w) else fs w)
       | ["gnome-screenshot"; "-f"; p] => exited 0 "" (<[p := shot]> (fs w))
       | ["scrot"; "-o"; p] =>
           exited scrot_code ""
             (if Z.eqb scrot_code 0 then <[p := shot]> (fs w) else fs w)
       | "xdotool" :: _ => exited xdotool_code location (fs w)
       | _ => None
       end;
     mkstemp := fun suffix _ => Some ("/tmp/tmpq1w2e3" +:+ suffix);
     can_bind := fun _ _ => true |}.

Definition boot (session : option string) : World :=
  {| XDG_SESSION_TYPE := session; fs := ∅; spawned := []; log := [];
     wfile := [] |}.

Definition post (p : string) (len : option string) (content : bytes) : Request :=
  {| command := "POST"; target_parses := true; path := p; query := [];
     content_length := len; rfile := content |}.

Definition get_request (p : string) : Request :=
  {| command := "GET"; target_parses := true; path := p; query := [];
     content_length := None; rfile := [] |}.

Definition tray : ScreenControlTray :=
  {| connected := true; status_item := true; indicator := true; idle := [] |}.

Definition get_query (p : string) (q : list (string * list string)) : Request :=
  {| command := "GET"; target_parses := true; path := p; query := q;
     content_length := None; rfile := [] |}.

(** Libraries whose [json.loads] answers [v] for every body. *)
Definition libs_loading (v : PyVal) : Libs :=
  {| png_decode := decode;
     convert_data := fun _ img => Some (data img);
     jpeg_encode := fun img q =>
       Some (data img ++ [default x00 (Byte.of_nat (Z.to_nat (q mod 256)))]);
     png_encode := fun img => Some (data img);
     json_loads := fun _ => Some v;
     b64encode := fun _ => "";
     repr := fun _ => "" |}.

End Fixture.

(** ** What the specification says, as predicates on the model *)

(** Every request has a worker of its own. *)
Definition own_worker (events : list Event) : Prop :=
  forall t u i j, In (Begin t i) events -> In (Begin u j) events ->
                  i <> j -> t <> u.

(** The body of a POST carries no field: there is no body to read, or the
    body is the empty object. *)
Definition empty_body (libs : Libs) (req : Request) : Prop :=
  content_length req = None \/
  (exists h, content_length req = Some h /\ int_of_str h = Ok 0) \/
  (exists h n content,
     content_length req = Some h /\ int_of_str h = Ok n /\ n <> 0 /\
     rfile_read req n = Ok content /\ json_loads libs content = Some (VDict [])).

(** The body of a POST is read as the JSON object [d]: the object that was
    sent, or the empty object when there is no body to read. *)
Definition body_is_object (libs : Libs) (req : Request) (d : list (string * PyVal))
  : Prop :=
  (content_length req = None /\ d = []) \/
  (exists h, content_length req = Some h /\ int_of_str h = Ok 0 /\ d = []) \/
  (exists h n content,
     content_length req = Some h /\ int_of_str h = Ok n /\ n <> 0 /\
     rfile_read req n = Ok content /\ json_loads libs content = Some (VDict d)).

(** The value of field [k] of the object [d], or [dflt] when [d] has no
    such field. *)
Definition field (d : list (string * PyVal)) (k : string) (dflt : PyVal) : PyVal :=
  match assoc k d with Some v => v | None => dflt end.

(** The call each POST route makes for the object [d]: every field is looked
    up on its own; an absent coordinate is 0, an absent scroll amount is 3,
    an absent button is "left", an absent direction is "down" and an absent
    text, key or window id is the empty text. *)
Definition routed_call (host : Host) (libs : Libs) (p : string)
    (d : list (string * PyVal)) : option (M bool) :=
  if String.eqb p "/click" then
    Some (click host (field d "x" (VInt 0)) (field d "y" (VInt 0))
            (field d "button" (VStr "left")))
  else if String.eqb p "/double_click" then
    Some (double_click host (field d "x" (VInt 0)) (field d "y" (VInt 0)))
  else if String.eqb p "/mouse/move" then
    Some (move_mouse host (field d "x" (VInt 0)) (field d "y" (VInt 0)))
  else if String.eqb p "/mouse/scroll" then
    Some (scroll host libs (field d "direction" (VStr "down"))
            (field d "amount" (VInt 3)))
  else if String.eqb p "/mouse/drag" then
    Some (drag host (field d "startX" (VInt 0)) (field d "startY" (VInt 0))
            (field d "endX" (VInt 0)) (field d "endY" (VInt 0)))
  else if String.eqb p "/keyboard/type" then
    Some (type_text host (field d "text" (VStr "")))
  else if String.eqb p "/keyboard/key" then
    Some (press_key host (field d "key" (VStr "")))
  else if String.eqb p "/ui/focus" then
    Some (focus_window host (field d "windowId" (VStr "")))
  else None.

(** The requests that get a response: all but a GET or POST whose target
    [urlparse] rejects. *)
Definition answered (req : Request) : bool :=
  (target_parses req
   || negb (String.eqb (command req) "GET" || String.eqb (command req) "POST"))%bool.

(** The text has no NUL character. *)
Definition no_nul (s : string) : bool :=
  negb (existsb (Ascii.eqb zero) (list_ascii_of_string s)).

(** The call each POST route makes when its body has no field. *)
Definition defaulted_call (host : Host) (libs : Libs) (p : string) : option (M bool) :=
  if String.eqb p "/click" then Some (click host (VInt 0) (VInt 0) (VStr "left"))
  else if String.eqb p "/double_click" then Some (double_click host (VInt 0) (VInt 0))
  else if String.eqb p "/mouse/move" then Some (move_mouse host (VInt 0) (VInt 0))
  else if String.eqb p "/mouse/scroll" then Some (scroll host libs (VStr "down") (VInt 3))
  else if String.eqb p "/mouse/drag" then
    Some (drag host (VInt 0) (VInt 0) (VInt 0) (VInt 0))
  else if String.eqb p "/keyboard/type" then Some (type_text host (VStr ""))
  else if String.eqb p "/keyboard/key" then Some (press_key host (VStr ""))
  else if String.eqb p "/ui/focus" then Some (focus_window host (VStr ""))
  else None.

(** The capture returns the JPEG encoding of an image of mode RGB. *)
Definition jpeg_capture_is_RGB (host : Host) (libs : Libs) (fmt : string) (q : Z)
    (w : World) : Prop :=
  exists rgb b, mode rgb = "RGB" /\ jpeg_encode libs rgb q = Some b /\
                fst (take_screenshot host libs fmt q w) = Ok b.

(** A computation that writes no response. *)
Definition silent {A} (m : M A) : Prop :=
  forall w, wfile (snd (m w)) = wfile w.

(** A machine on which [argv] runs in [w] and exits 0. *)
Definition exits_zero (host : Host) (argv : list string) (w : World) : Prop :=
  exists p files, spawn host argv w = Some (p, files) /\ returncode p = 0.

(** A machine on which [argv] runs in [w] and exits with a non-zero code. *)
Definition exits_nonzero (host : Host) (argv : list string) (w : World) : Prop :=
  exists p files, spawn host argv w = Some (p, files) /\ returncode p <> 0.

(** The world right after [NamedTemporaryFile] made [path]. *)
Definition with_tmp (path : string) (w : World) : World :=
  set_fs (<[path := []]> (fs w)) w.

(** Every character of [s] satisfies [p]. *)
Fixpoint string_forall (p : ascii -> bool) (s : string) : bool :=
  match s with
  | EmptyString => true
  | String c r => p c && string_forall p r
  end.

Definition not_space (c : ascii) : bool := negb (is_space c).

Definition not_int_space (c : ascii) : bool := negb (is_int_space c).

Definition not_colon (c : ascii) : bool := negb (Ascii.eqb c ":").

(** The characters of a decimal numeral. *)
Definition numeral_char (c : ascii) : bool := (is_digit c || Ascii.eqb c "-")%bool.

(** A field of a line: not empty and without whitespace. *)
Definition is_field (s : string) : Prop :=
  s <> "" /\ string_forall not_space s = true.

(** A separator of fields: not empty and all whitespace. *)
Definition is_gap (s : string) : Prop :=
  s <> "" /\ string_forall is_space s = true.

(** The response allows any origin. *)
Definition allows_any_origin (r : Response) : Prop :=
  In ("Access-Control-Allow-Origin", "*") (headers r).

(** [m] returns after writing exactly one response, which satisfies [P]. *)
Definition answers (P : Response -> Prop) (m : M unit) : Prop :=
  forall w, exists r w',
    m w = (Ok tt, w') /\ wfile w' = wfile w ++ [r] /\ P r.

(** [m] either does that, or raises having written nothing. *)
Definition answers_or_raises (P : Response -> Prop) (m : M unit) : Prop :=
  forall w,
    (exists r w', m w = (Ok tt, w') /\ wfile w' = wfile w ++ [r] /\ P r) \/
    (exists e w', m w = (Raise e, w') /\ wfile w' = wfile w).

(** A response of the bridge: any origin allowed, status 200, 404 or 500. *)
Definition bridge_response (r : Response) : Prop :=
  allows_any_origin r /\ (status r = 200 \/ status r = 404 \/ status r = 500).

(** The icon descriptions queued by [set_icon_full] calls. *)
Definition icon_descriptions (calls : list UICall) : list string :=
  concat (map (fun c => match c with
                        | set_icon_full _ d => [d]
                        | set_label _ => []
                        end) calls).

(** The reply of the health request says the service is up. *)
Definition is_up (reply : Result Z) : bool :=
  match reply with Ok code => Z.eqb code 200 | Raise _ => false end.


(** The world after [logger.error] recorded [e] under [msg]. *)
Definition logged (msg : string) (e : Exn) (w : World) : World :=
  snd (logger_error msg e w).

(** ** Proofs *)

(** Unfold the monad and split on every outcome. *)
Ltac unfold_monad :=
  unfold mbind, M_bind, mret, M_ret, try_except, raise, lift, logger_error,
         environ_get_session, write_response in *.

Ltac step := unfold_monad; simpl in *; repeat (case_match; simpl in *; simplify_eq).

Section Capture.

Context (host : Host) (libs : Libs).

Lemma subprocess_run_spawned argv check w :
  spawned (snd (subprocess_run host argv check w)) = spawned w ++ [argv].
Proof. unfold subprocess_run. repeat case_match; reflexivity. Qed.

Lemma subprocess_run_nonzero_checked argv w :
  exits_nonzero host argv w ->
  exists c, fst (subprocess_run host argv true w) = Raise (CalledProcessError argv c)
            /\ c <> 0.
Proof.
  intros (p & files & Hs & Hc). unfold subprocess_run. rewrite Hs.
  destruct (Z.eqb_spec (returncode p) 0) as [E|E]; [contradiction|].
  simpl. eauto.
Qed.

Lemma encode_image_world fmt q img w :
  snd (encode_image libs fmt q img w) = w.
Proof.
  unfold encode_image, Image_convert, Image_save_JPEG, Image_save_PNG.
  step; reflexivity.
Qed.

(** After the temporary file is made, [take_screenshot] spawns what the
    backend step spawns and nothing else. *)
Lemma take_screenshot_spawned fmt q w p :
  mkstemp host ".png" w = Some p ->
  spawned (snd (take_screenshot host libs fmt q w))
  = spawned (snd (run_capture_backend host p (with_tmp p w))).
Proof.
  intros Hp. unfold take_screenshot, NamedTemporaryFile, Image_open, os_unlink.
  unfold_monad. rewrite Hp. fold (with_tmp p w).
  destruct (run_capture_backend host p (with_tmp p w)) as [[[]|e] w1]; simpl; [|reflexivity].
  destruct (fs w1 !! p) as [c|] eqn:Hf; simpl; [|reflexivity].
  destruct (png_decode libs c) as [img|]; simpl; [|reflexivity].
  pose proof (encode_image_world fmt q img w1) as Hw.
  destruct (encode_image libs fmt q img w1) as [[b|e] w2]; simpl in *; subst w2;
    rewrite ?Hf; simpl; reflexivity.
Qed.

(** A backend step that raises makes the whole capture raise the same. *)
Lemma take_screenshot_backend_raises fmt q w p e w1 :
  mkstemp host ".png" w = Some p ->
  run_capture_backend host p (with_tmp p w) = (Raise e, w1) ->
  fst (take_screenshot host libs fmt q w) = Raise e.
Proof.
  intros Hp Hb. unfold take_screenshot, NamedTemporaryFile. unfold_monad.
  rewrite Hp. fold (with_tmp p w). rewrite Hb. reflexivity.
Qed.

Lemma backend_wayland p w :
  XDG_SESSION_TYPE w = Some "wayland" ->
  (exits_nonzero host ["grim"; p] w ->
     spawned (snd (run_capture_backend host p w))
     = spawned w ++ [["grim"; p]; ["gnome-screenshot"; "-f"; p]]) /\
  (~ exits_nonzero host ["grim"; p] w ->
     spawned (snd (run_capture_backend host p w)) = spawned w ++ [["grim"; p]]).
Proof.
  intros Hs. unfold run_capture_backend. unfold_monad. rewrite Hs.
  rewrite bool_decide_eq_true_2 by reflexivity.
  pose proof (subprocess_run_spawned ["grim"; p] false w) as Hg.
  unfold exits_nonzero.
  destruct (subprocess_run host ["grim"; p] false w) as [[c|e] w1] eqn:Hrun;
    simpl in Hg.
  - destruct (Z.eqb_spec (returncode c) 0) as [E|E]; simpl.
    + split; [|intros _; exact Hg].
      intros (c' & f & Hsp & Hc). exfalso.
      unfold subprocess_run in Hrun. rewrite Hsp in Hrun. simpl in Hrun.
      injection Hrun as -> _. contradiction.
    + split.
      * intros _.
        pose proof (subprocess_run_spawned ["gnome-screenshot"; "-f"; p] false w1) as Hn.
        destruct (subprocess_run host ["gnome-screenshot"; "-f"; p] false w1)
          as [[c2|e2] w2]; simpl in *; rewrite Hn, Hg, <- app_assoc; reflexivity.
      * intros Hno. exfalso. apply Hno.
        unfold subprocess_run in Hrun.
        destruct (spawn host ["grim"; p] w) as [[c' f]|]; [|discriminate].
        simpl in Hrun. injection Hrun as -> _. eauto.
  - split; [|intros _; exact Hg].
    intros (c' & f & Hsp & Hc). unfold subprocess_run in Hrun.
    rewrite Hsp in Hrun. discriminate.
Qed.

Lemma backend_x11 p w :
  XDG_SESSION_TYPE w <> Some "wayland" ->
  spawned (snd (run_capture_backend host p w)) = spawned w ++ [["scrot"; "-o"; p]] /\
  (exits_nonzero host ["scrot"; "-o"; p] w ->
   exists c, c <> 0 /\
     fst (run_capture_backend host p w) = Raise (CalledProcessError ["scrot"; "-o"; p] c)).
Proof.
  intros Hs. unfold run_capture_backend. unfold_monad.
  rewrite bool_decide_eq_false_2 by exact Hs.
  pose proof (subprocess_run_spawned ["scrot"; "-o"; p] true w) as Hg.
  split.
  - destruct (subprocess_run host ["scrot"; "-o"; p] true w) as [[c|e] w1];
      exact Hg.
  - intros Hnz. destruct (subprocess_run_nonzero_checked _ _ Hnz) as (c & Hr & Hc).
    exists c. split; [exact Hc|].
    destruct (subprocess_run host ["scrot"; "-o"; p] true w) as [[c'|e] w1];
      simpl in *; congruence.
Qed.

(** C2. The capture backend follows the session type. Under Wayland grim is
    run first and gnome-screenshot is run after it exactly when grim exits
    with a non-zero code; in any other session scrot alone is run, and a
    non-zero exit of scrot makes the capture raise, with nothing run after
    it. [spawned] lists every process the call started, in order. *)
Theorem capture_backend_follows_session fmt q w p :
  mkstemp host ".png" w = Some p ->
  (XDG_SESSION_TYPE w = Some "wayland" ->
     (exits_nonzero host ["grim"; p] (with_tmp p w) ->
        spawned (snd (take_screenshot host libs fmt q w))
        = spawned w ++ [["grim"; p]; ["gnome-screenshot"; "-f"; p]]) /\
     (~ exits_nonzero host ["grim"; p] (with_tmp p w) ->
        spawned (snd (take_screenshot host libs fmt q w))
        = spawned w ++ [["grim"; p]])) /\
  (XDG_SESSION_TYPE w <> Some "wayland" ->
     spawned (snd (take_screenshot host libs fmt q w))
     = spawned w ++ [["scrot"; "-o"; p]] /\
     (exits_nonzero host ["scrot"; "-o"; p] (with_tmp p w) ->
        exists c, c <> 0 /\
          fst (take_screenshot host libs fmt q w)
          = Raise (CalledProcessError ["scrot"; "-o"; p] c))).
Proof.
  intros Hp. rewrite (take_screenshot_spawned fmt q w p Hp).
  split; intros Hs.
  - exact (backend_wayland p (with_tmp p w) Hs).
  - destruct (backend_x11 p (with_tmp p w) Hs) as [Ht Hf].
    split; [exact Ht|].
    intros Hnz. destruct (Hf Hnz) as (c & Hc & Hr). exists c. split; [exact Hc|].
    destruct (run_capture_backend host p (with_tmp p w)) as [r w1] eqn:Hb.
    simpl in Hr. subst r.
    exact (take_screenshot_backend_raises fmt q w p _ w1 Hp Hb).
Qed.

(** When the capture returns the image, the temporary file is gone. *)
Lemma take_screenshot_ok_removes_tmp_file fmt q w p b :
  mkstemp host ".png" w = Some p ->
  fst (take_screenshot host libs fmt q w) = Ok b ->
  fs (snd (take_screenshot host libs fmt q w)) !! p = None.
Proof.
  intros Hp. unfold take_screenshot, NamedTemporaryFile, Image_open, os_unlink.
  unfold_monad. rewrite Hp. fold (with_tmp p w).
  destruct (run_capture_backend host p (with_tmp p w)) as [[[]|e] w1]; simpl;
    [|discriminate].
  destruct (fs w1 !! p) as [c|] eqn:Hf; simpl; [|discriminate].
  destruct (png_decode libs c) as [img|]; simpl; [|discriminate].
  pose proof (encode_image_world fmt q img w1) as Hw.
  destruct (encode_image libs fmt q img w1) as [[b'|e] w2]; simpl in *; subst w2;
    [|discriminate].
  rewrite Hf. simpl. intros _. apply lookup_delete_eq.
Qed.

(** When the file the backend left does not decode, the capture raises and
    the temporary file is still there. *)
Lemma take_screenshot_decode_failure_keeps_tmp_file fmt q w p w1 c :
  mkstemp host ".png" w = Some p ->
  run_capture_backend host p (with_tmp p w) = (Ok tt, w1) ->
  fs w1 !! p = Some c ->
  png_decode libs c = None ->
  fst (take_screenshot host libs fmt q w) = Raise UnidentifiedImageError /\
  fs (snd (take_screenshot host libs fmt q w)) !! p = Some c.
Proof.
  intros Hp Hb Hf Hd. unfold take_screenshot, NamedTemporaryFile, Image_open.
  unfold_monad. rewrite Hp. fold (with_tmp p w). rewrite Hb. simpl.
  rewrite Hf, Hd. simpl. auto.
Qed.

(** C9. With format png the quality has no effect: for the same machine and
    the same world, two captures that differ only in the quality return the
    same bytes (and leave the same world). *)
Theorem png_ignores_quality q1 q2 w :
  take_screenshot host libs "png" q1 w = take_screenshot host libs "png" q2 w.
Proof. reflexivity. Qed.

End Capture.

Section Capture_encoding.

Context (host : Host) (libs : Libs).

(** The capture when every step before the encoding goes well. *)
Lemma take_screenshot_encodes fmt q w p w1 c img :
  mkstemp host ".png" w = Some p ->
  run_capture_backend host p (with_tmp p w) = (Ok tt, w1) ->
  fs w1 !! p = Some c ->
  png_decode libs c = Some img ->
  fst (take_screenshot host libs fmt q w) = fst (encode_image libs fmt q img w1).
Proof.
  intros Hp Hb Hf Hd. unfold take_screenshot, NamedTemporaryFile, Image_open, os_unlink.
  unfold_monad. rewrite Hp. fold (with_tmp p w). rewrite Hb. simpl.
  rewrite Hf, Hd. simpl.
  pose proof (encode_image_world libs fmt q img w1) as Hw.
  destruct (encode_image libs fmt q img w1) as [[b|e] w2]; simpl in *; subst w2;
    [rewrite Hf|]; reflexivity.
Qed.

(** C5, amended. For a capture with format jpeg (in any letter case) whose
    decoded source image has mode RGBA, the image is converted to RGB, which
    has three bands, and the result is the JPEG encoding of that RGB image
    at the requested quality. *)
Theorem jpeg_capture_flattens_RGBA fmt q w p w1 c img d b :
  lower fmt = "jpeg" ->
  mkstemp host ".png" w = Some p ->
  run_capture_backend host p (with_tmp p w) = (Ok tt, w1) ->
  fs w1 !! p = Some c ->
  png_decode libs c = Some img ->
  mode img = "RGBA" ->
  convert_data libs "RGB" img = Some d ->
  jpeg_encode libs {| mode := "RGB"; size := size img; data := d |} q = Some b ->
  fst (take_screenshot host libs fmt q w) = Ok b /\
  jpeg_capture_is_RGB host libs fmt q w /\
  getbands "RGB" = ["R"; "G"; "B"].
Proof.
  intros Hfmt Hp Hb Hf Hd Hm Hc He.
  assert (Hr : fst (take_screenshot host libs fmt q w) = Ok b).
  { rewrite (take_screenshot_encodes fmt q w p w1 c img Hp Hb Hf Hd).
    unfold encode_image, Image_convert, Image_save_JPEG. unfold_monad.
    rewrite Hfmt, Hm. simpl. rewrite Hc. simpl. rewrite He. reflexivity. }
  split; [exact Hr|]. split; [|reflexivity].
  exists {| mode := "RGB"; size := size img; data := d |}, b. auto.
Qed.

End Capture_encoding.

Section Input.

Context (host : Host).

(** An input operation never raises: it returns whether its body completed,
    and spawns what its body spawned. *)
Lemma attempt_result msg body w :
  fst (attempt msg body w) = Ok (is_ok (fst (body w))).
Proof. unfold attempt. unfold_monad. destruct (body w) as [[[]|e] w1]; reflexivity. Qed.

Lemma attempt_spawned msg body w :
  spawned (snd (attempt msg body w)) = spawned (snd (body w)).
Proof. unfold attempt. unfold_monad. destruct (body w) as [[[]|e] w1]; reflexivity. Qed.

Lemma attempt_wfile msg body w :
  wfile (snd (attempt msg body w)) = wfile (snd (body w)).
Proof. unfold attempt. unfold_monad. destruct (body w) as [[[]|e] w1]; reflexivity. Qed.

Lemma subprocess_run_wfile argv check w :
  wfile (snd (subprocess_run host argv check w)) = wfile w.
Proof. unfold subprocess_run. repeat case_match; reflexivity. Qed.

Lemma subprocess_run_zero argv w :
  exits_zero host argv w ->
  exists c, fst (subprocess_run host argv true w) = Ok c.
Proof.
  intros (c & f & Hs & Hz). unfold subprocess_run. rewrite Hs, Hz. simpl. eauto.
Qed.

(** A checked command followed by a second one: the second is started
    exactly when the first completes. *)
Lemma two_commands a b w :
  let body := (subprocess_run host a true ;; subprocess_run host b true ;; mret tt) : M unit in
  (is_ok (fst (subprocess_run host a true w)) = true ->
     spawned (snd (body w)) = spawned w ++ [a; b] /\
     is_ok (fst (body w))
     = is_ok (fst (subprocess_run host b true (snd (subprocess_run host a true w))))) /\
  (is_ok (fst (subprocess_run host a true w)) = false ->
     spawned (snd (body w)) = spawned w ++ [a] /\ is_ok (fst (body w)) = false).
Proof.
  simpl. unfold_monad.
  pose proof (subprocess_run_spawned host a true w) as Ha.
  destruct (subprocess_run host a true w) as [[c|e] w1]; simpl in *.
  - pose proof (subprocess_run_spawned host b true w1) as Hb.
    destruct (subprocess_run host b true w1) as [[c2|e2] w2]; simpl in *;
      rewrite Hb, Ha, <- app_assoc; simpl; split; try discriminate; auto.
  - split; try discriminate; auto.
Qed.

(** C6. DoubleClick warps the pointer once and clicks once with repeat
    count 2 on button 1. For integer coordinates the call starts the warp to
    (x, y) first and exactly once; the only command that can follow is the
    single [xdotool click --repeat 2 1], and it does follow when the warp
    exits 0. *)
Theorem double_click_warps_once (x y : Z) (w : World) :
  (exists rest,
     spawned (snd (double_click host (VInt x) (VInt y) w))
     = spawned w ++ ["xdotool"; "mousemove"; str_of_int x; str_of_int y] :: rest /\
     (rest = [] \/ rest = [["xdotool"; "click"; "--repeat"; "2"; "1"]])) /\
  (exits_zero host ["xdotool"; "mousemove"; str_of_int x; str_of_int y] w ->
     spawned (snd (double_click host (VInt x) (VInt y) w))
     = spawned w ++ [["xdotool"; "mousemove"; str_of_int x; str_of_int y];
                     ["xdotool"; "click"; "--repeat"; "2"; "1"]]).
Proof.
  set (argv := ["xdotool"; "mousemove"; str_of_int x; str_of_int y]).
  set (dbl := ["xdotool"; "click"; "--repeat"; "2"; "1"]).
  unfold double_click. rewrite attempt_spawned.
  destruct (two_commands argv dbl w) as [Hok Hfail].
  assert (Hbody : forall w0,
            (warp host (VInt x) (VInt y) ;; subprocess_run host dbl true ;; mret tt) w0
            = (subprocess_run host argv true ;; subprocess_run host dbl true ;; mret tt) w0).
  { intros w0. unfold warp, mousemove_argv. unfold_monad. simpl. fold argv.
    destruct (subprocess_run host argv true w0) as [[c|e] w1]; reflexivity. }
  rewrite Hbody.
  destruct (is_ok (fst (subprocess_run host argv true w))) eqn:E.
  - destruct (Hok eq_refl) as [Hs _]. split; [|intros _; exact Hs].
    exists [dbl]. split; [exact Hs|]. right. reflexivity.
  - destruct (Hfail eq_refl) as [Hs _]. split.
    + exists []. split; [exact Hs|]. left. reflexivity.
    + intros Hz. destruct (subprocess_run_zero argv w Hz) as [c Hc].
      rewrite Hc in E. discriminate.
Qed.

(** C4. The button name selects the xdotool button: left is 1, right is 3,
    middle is 2 and any other text, the empty text too, is 1. Such a click is
    not rejected: on a machine where the warp and the click exit 0, the call
    returns [True] after the warp to (x, y) and one click with that button. *)
Theorem click_button_index (x y : Z) (s : string) (w : World) :
  exists btn,
    button_index (VStr s) = Ok btn /\
    (s = "left" -> btn = "1") /\
    (s = "right" -> btn = "3") /\
    (s = "middle" -> btn = "2") /\
    (s <> "left" -> s <> "right" -> s <> "middle" -> btn = "1") /\
    (exits_zero host ["xdotool"; "mousemove"; str_of_int x; str_of_int y] w ->
     exits_zero host ["xdotool"; "click"; btn]
       (snd (subprocess_run host
               ["xdotool"; "mousemove"; str_of_int x; str_of_int y] true w)) ->
     fst (click host (VInt x) (VInt y) (VStr s) w) = Ok true /\
     spawned (snd (click host (VInt x) (VInt y) (VStr s) w))
     = spawned w ++ [["xdotool"; "mousemove"; str_of_int x; str_of_int y];
                     ["xdotool"; "click"; btn]]).
Proof.
  set (argv := ["xdotool"; "mousemove"; str_of_int x; str_of_int y]).
  set (btn := if String.eqb s "left" then "1"
              else if String.eqb s "right" then "3"
              else if String.eqb s "middle" then "2" else "1").
  exists btn. split; [reflexivity|].
  split; [|split; [|split; [|split]]].
  - intros ->. reflexivity.
  - intros ->. reflexivity.
  - intros ->. reflexivity.
  - intros H1 H2 H3. unfold btn.
    apply String.eqb_neq in H1, H2, H3. rewrite H1, H2, H3. reflexivity.
  - intros Hwarp Hclick.
    destruct (two_commands argv ["xdotool"; "click"; btn] w) as [Hok _].
    destruct (subprocess_run_zero argv w Hwarp) as [c Hc].
    destruct (subprocess_run_zero _ _ Hclick) as [c2 Hc2].
    assert (Hbody : (lift (button_index (VStr s)) ≫= λ b : string,
                       warp host (VInt x) (VInt y) ;;
                       subprocess_run host ["xdotool"; "click"; b] true ;; mret tt) w
                    = (subprocess_run host argv true ;;
                       subprocess_run host ["xdotool"; "click"; btn] true ;; mret tt) w).
    { unfold warp, mousemove_argv. unfold_monad. simpl. fold argv. fold btn.
      destruct (subprocess_run host argv true w) as [[c'|e] w1]; reflexivity. }
    rewrite Hc in Hok. destruct (Hok eq_refl) as [Hs Hr].
    unfold click. rewrite attempt_result, attempt_spawned, Hbody. split.
    + f_equal. rewrite Hr, Hc2. reflexivity.
    + exact Hs.
Qed.

End Input.

(** *** Computations that write no response *)

Create HintDb silent.

Lemma silent_ret {A} (a : A) : silent (mret a).
Proof. intros w. reflexivity. Qed.

Lemma silent_raise {A} (e : Exn) : silent (@raise A e).
Proof. intros w. reflexivity. Qed.

Lemma silent_lift {A} (r : Result A) : silent (lift r).
Proof. intros w. reflexivity. Qed.

Lemma silent_bind {A B} (m : M A) (f : A -> M B) :
  silent m -> (forall a, silent (f a)) -> silent (m ≫= f).
Proof.
  intros Hm Hf w. unfold mbind, M_bind. specialize (Hm w).
  destruct (m w) as [[a|e] w1]; simpl in *; [rewrite Hf|]; exact Hm.
Qed.

Lemma silent_try {A} (body : M A) (handler : Exn -> M A) :
  silent body -> (forall e, silent (handler e)) -> silent (try_except body handler).
Proof.
  intros Hm Hf w. unfold try_except. specialize (Hm w).
  destruct (body w) as [[a|e] w1]; simpl in *; [|rewrite Hf]; exact Hm.
Qed.

Lemma silent_logger_error msg e : silent (logger_error msg e).
Proof. intros w. reflexivity. Qed.

Lemma silent_subprocess_run host argv check : silent (subprocess_run host argv check).
Proof. intros w. apply subprocess_run_wfile. Qed.

Lemma silent_argv_str v : silent (argv_str v).
Proof. intros w. unfold argv_str. repeat case_match; reflexivity. Qed.

#[local] Hint Resolve silent_ret silent_raise silent_lift silent_logger_error
  silent_subprocess_run silent_argv_str : silent.

Ltac silence :=
  repeat first
    [ apply silent_bind; [|intros ?]
    | apply silent_try; [|intros ?]
    | solve [auto with silent]
    | match goal with |- silent (match ?x with _ => _ end) => destruct x end
    | match goal with |- silent (if ?x then _ else _) => destruct x end ].

Section Handler.

Context (host : Host) (libs : Libs).

Lemma silent_attempt msg body : silent body -> silent (attempt msg body).
Proof. intros Hb. unfold attempt. silence. Qed.

Lemma silent_warp x y : silent (warp host x y).
Proof. unfold warp, mousemove_argv. silence. Qed.

#[local] Hint Resolve silent_warp : silent.

Lemma silent_click x y b : silent (click host x y b).
Proof. unfold click. apply silent_attempt. silence. Qed.

Lemma silent_double_click x y : silent (double_click host x y).
Proof. unfold double_click. apply silent_attempt. silence. Qed.

Lemma silent_move_mouse x y : silent (move_mouse host x y).
Proof. unfold move_mouse. apply silent_attempt. silence. Qed.

Lemma silent_scroll d a : silent (scroll host libs d a).
Proof. unfold scroll. apply silent_attempt. silence. Qed.

Lemma silent_drag a b c d : silent (drag host a b c d).
Proof. unfold drag. apply silent_attempt. silence. Qed.

Lemma silent_type_text t : silent (type_text host t).
Proof. unfold type_text. apply silent_attempt. silence. Qed.

Lemma silent_press_key k : silent (press_key host k).
Proof. unfold press_key. apply silent_attempt. silence. Qed.

Lemma silent_focus_window i : silent (focus_window host i).
Proof. unfold focus_window. apply silent_attempt. silence. Qed.

Lemma silent_query_mouse_location : silent (query_mouse_location host).
Proof. unfold query_mouse_location. silence. Qed.

Lemma silent_get_mouse_position : silent (get_mouse_position host).
Proof.
  unfold get_mouse_position. apply silent_try; [apply silent_query_mouse_location|].
  intros e. silence.
Qed.

(** Every call a POST route makes with defaults returns a boolean and
    writes nothing itself. *)
Lemma defaulted_call_total p op w :
  defaulted_call host libs p = Some op ->
  exists success w', op w = (Ok success, w') /\ wfile w' = wfile w.
Proof.
  unfold defaulted_call. intros H.
  assert (Hs : silent op /\ exists msg body, op = attempt msg body).
  { repeat case_match; simplify_eq; split;
      eauto using silent_click, silent_double_click, silent_move_mouse,
        silent_scroll, silent_drag, silent_type_text, silent_press_key,
        silent_focus_window;
      unfold click, double_click, move_mouse, scroll, drag, type_text,
        press_key, focus_window; eauto. }
  destruct Hs as [Hs (msg & body & ->)].
  pose proof (attempt_result msg body w) as Hr. specialize (Hs w).
  destruct (attempt msg body w) as [r w']. simpl in *. subst r. eauto.
Qed.

Lemma _read_json_object req d w :
  body_is_object libs req d -> _read_json libs req w = (Ok (VDict d), w).
Proof.
  unfold body_is_object, _read_json. unfold_monad.
  intros [[H ->] | [(h & H & Hi & ->) | (h & n & c & H & Hi & Hn & Hr & Hj)]];
    rewrite H; simpl.
  - reflexivity.
  - rewrite Hi. reflexivity.
  - rewrite Hi. simpl. destruct (Z.eqb_spec n 0); [contradiction|]. simpl.
    rewrite Hr, Hj. reflexivity.
Qed.

Lemma empty_body_is_object req : empty_body libs req -> body_is_object libs req [].
Proof.
  unfold empty_body, body_is_object.
  intros [H | [(h & H & Hi) | (h & n & c & H)]]; [auto|right; left; eauto|].
  right. right. eauto.
Qed.

Lemma _read_json_empty req w :
  empty_body libs req -> _read_json libs req w = (Ok (VDict []), w).
Proof. intros H. apply _read_json_object, empty_body_is_object, H. Qed.

(** Every call a POST route makes returns a boolean and writes nothing
    itself. *)
Lemma routed_call_total p d op w :
  routed_call host libs p d = Some op ->
  exists success w', op w = (Ok success, w') /\ wfile w' = wfile w.
Proof.
  unfold routed_call. intros H.
  assert (Hs : silent op /\ exists msg body, op = attempt msg body).
  { repeat case_match; simplify_eq; split;
      eauto using silent_click, silent_double_click, silent_move_mouse,
        silent_scroll, silent_drag, silent_type_text, silent_press_key,
        silent_focus_window;
      unfold click, double_click, move_mouse, scroll, drag, type_text,
        press_key, focus_window; eauto. }
  destruct Hs as [Hs (msg & body & ->)].
  pose proof (attempt_result msg body w) as Hr. specialize (Hs w).
  destruct (attempt msg body w) as [r w']. simpl in *. subst r. eauto.
Qed.

Lemma try_bind_ok {A B} (m : M A) (f : A -> M B) h a w w1 :
  m w = (Ok a, w1) -> try_except (m ≫= f) h w = try_except (f a) h w1.
Proof. intros H. unfold try_except, mbind, M_bind. rewrite H. reflexivity. Qed.

Lemma try_get_default {B} k d (f : PyVal -> M B) h w :
  try_except (lift (get (VDict []) k d) ≫= f) h w = try_except (f d) h w.
Proof. reflexivity. Qed.

Lemma try_send {B} (op : M B) (reply : B -> PyVal) h w b w' :
  op w = (Ok b, w') ->
  try_except (op ≫= fun s => _send_json (reply s) 200) h w
  = _send_json (reply b) 200 w'.
Proof. intros H. unfold try_except, mbind, M_bind. rewrite H. reflexivity. Qed.

Lemma try_get_field {B} k d dflt (f : PyVal -> M B) h w :
  try_except (lift (get (VDict d) k dflt) ≫= f) h w
  = try_except (f (field d k dflt)) h w.
Proof.
  unfold get, field, default. destruct (assoc k d); reflexivity.
Qed.

(** C7, amended. A POST whose body is a JSON object, or is empty (read as
    the empty object), is served with each absent field replaced by its
    default, whatever the other fields are: an absent coordinate (x, y,
    startX, startY, endX, endY) is 0 and an absent scroll amount is 3. So
    /click with an empty body or with the empty object clicks at x=0, y=0
    with button left. The call returns a boolean and the one response
    written is 200 with that boolean as its success field, never a 500. *)
Theorem post_absent_fields_use_defaults req d w op :
  body_is_object libs req d ->
  routed_call host libs (path req) d = Some op ->
  (forall k dflt, assoc k d = None -> field d k dflt = dflt) /\
  (path req = "/click" -> d = [] ->
   op = click host (VInt 0) (VInt 0) (VStr "left")) /\
  exists success w',
    op w = (Ok success, w') /\
    do_POST host libs req w = _send_json (success_dict success) 200 w' /\
    wfile (snd (do_POST host libs req w))
    = wfile w ++ [{| status := 200; headers := json_headers;
                     body := JsonBody (VDict [("success", VBool success)]) |}].
Proof.
  intros Hb Hop. split; [|split].
  - intros k dflt Hk. unfold field. rewrite Hk. reflexivity.
  - intros Hp ->. rewrite Hp in Hop. injection Hop as <-. reflexivity.
  - destruct (routed_call_total _ _ _ w Hop) as (b & w' & Hrun & Hwf).
    exists b, w'. split; [exact Hrun|].
    assert (Hpost : do_POST host libs req w = _send_json (success_dict b) 200 w').
    { unfold do_POST. rewrite (try_bind_ok _ _ _ _ _ _ (_read_json_object req d w Hb)).
      unfold routed_call in Hop.
      repeat (case_match; [injection Hop as <-; rewrite ?try_get_field;
                           exact (try_send _ success_dict _ _ _ _ Hrun)|]).
      discriminate. }
    split; [exact Hpost|]. rewrite Hpost. simpl. rewrite Hwf. reflexivity.
Qed.

(** C10. GET /mouse/position never answers 500. Whatever the backend does,
    the one response written is a 200; when the query of the pointer
    location fails in any way (xdotool cannot be started, exits non-zero, or
    prints something that does not parse) the response is 200 with
    success true, x 0 and y 0, the same response as when xdotool reports the
    pointer at the origin. *)
Theorem mouse_position_never_500 req w :
  path req = "/mouse/position" ->
  let origin := {| status := 200; headers := json_headers;
                   body := JsonBody (VDict [("success", VBool true);
                                            ("x", VInt 0); ("y", VInt 0)]) |} in
  (exists r, wfile (snd (do_GET host libs req w)) = wfile w ++ [r] /\ status r = 200) /\
  (forall e, fst (query_mouse_location host w) = Raise e ->
     wfile (snd (do_GET host libs req w)) = wfile w ++ [origin]) /\
  (forall c files,
     spawn host ["xdotool"; "getmouselocation"] w = Some (c, files) ->
     returncode c = 0 ->
     parse_mouse_location (stdout c) = Ok (0, 0) ->
     wfile (snd (do_GET host libs req w)) = wfile w ++ [origin]).
Proof.
  intros Hp origin.
  assert (Hget : forall pos w',
            get_mouse_position host w = (Ok pos, w') ->
            do_GET host libs req w
            = _send_json (VDict (("success", VBool true) :: pos)) 200 w').
  { intros pos w' Hg. unfold do_GET. rewrite Hp. simpl.
    exact (try_send _ (fun pos => VDict (("success", VBool true) :: pos)) _ _ _ _ Hg). }
  pose proof (silent_get_mouse_position w) as Hsil.
  pose proof (silent_query_mouse_location w) as Hq.
  unfold get_mouse_position, try_except in Hsil, Hget.
  repeat split.
  - destruct (query_mouse_location host w) as [[pos|e] w1]; simpl in *.
    + rewrite (Hget _ _ eq_refl). simpl. rewrite Hq. eauto.
    + rewrite (Hget _ _ eq_refl). simpl. rewrite Hq. eauto.
  - intros e He.
    destruct (query_mouse_location host w) as [[pos|e'] w1]; simpl in *;
      [discriminate|].
    rewrite (Hget _ _ eq_refl). simpl. rewrite Hq. reflexivity.
  - intros c files Hs Hz Hparse.
    assert (Hrun : query_mouse_location host w
                   = (Ok (position_dict 0 0), set_fs files (record_spawn
                        ["xdotool"; "getmouselocation"] w))).
    { unfold query_mouse_location, subprocess_run. unfold_monad.
      rewrite Hs, Hz. simpl. rewrite Hparse. reflexivity. }
    rewrite Hrun in Hget. rewrite (Hget _ _ eq_refl). reflexivity.
Qed.

End Handler.

Section Server.

Context (host : Host) (libs : Libs).

Lemma serve_forever_events worker n reqs w :
  fst (serve_forever host libs worker n reqs w)
  = flat_map (fun i => [Begin worker i; Finish worker i]) (seq n (length reqs)).
Proof.
  revert n w. induction reqs as [|req rest IH]; intros n w; simpl; [reflexivity|].
  specialize (IH (S n) (handle_one_request host libs req w)).
  destruct (serve_forever host libs worker (S n) rest
              (handle_one_request host libs req w)) as [evs w2].
  simpl in *. rewrite IH. reflexivity.
Qed.

Lemma serve_forever_world worker n reqs w :
  snd (serve_forever host libs worker n reqs w)
  = fold_left (fun w req => handle_one_request host libs req w) reqs w.
Proof.
  revert n w. induction reqs as [|req rest IH]; intros n w; simpl; [reflexivity|].
  specialize (IH (S n) (handle_one_request host libs req w)).
  destruct (serve_forever host libs worker (S n) rest
              (handle_one_request host libs req w)) as [evs w2].
  simpl in *. exact IH.
Qed.

(** C3, amended. The bridge serves its requests one at a time, all on the
    single thread that [start] created for [serve_forever]: the handling of
    request [i] begins and finishes on that thread before the handling of
    request [i+1] begins, and each request is handled in the world the
    previous one left. When the port cannot be bound nothing is served. *)
Theorem bridge_serves_one_at_a_time self reqs w :
  serve host libs self reqs w
  = if can_bind host "127.0.0.1" (port self)
    then (flat_map (fun i => [Begin (S MainThread) i; Finish (S MainThread) i])
                   (seq 0 (length reqs)),
          fold_left (fun w req => handle_one_request host libs req w) reqs w)
    else ([], w).
Proof.
  unfold serve, start. destruct (can_bind host "127.0.0.1" (port self)); simpl;
    [|reflexivity].
  rewrite <- (serve_forever_events (S MainThread) 0%nat reqs w).
  rewrite <- (serve_forever_world (S MainThread) 0%nat reqs w).
  destruct (serve_forever host libs (S MainThread) 0 reqs w); reflexivity.
Qed.

End Server.

Section Liveness.

Lemma poll_loop_total replies self : exists self', poll_loop replies self = Ok self'.
Proof.
  revert self. induction replies as [|reply rest IH]; intros self; simpl; eauto.
Qed.

(** X25. A poll whose health request gets a response other than 200 and a
    poll whose health request fails (connection refused, or any other
    exception) both leave the tray disconnected: [connected] is [False]
    after that one call of [update_status]. The call never raises and
    returns [True], so the timer goes on polling whatever the replies are.
    (The text queued for the menu item differs: "Status: Disconnected" for a
    response, "Status: Service not running" for a failure.) *)
Theorem liveness_poll_disconnected (code : Z) (e : Exn) (self : ScreenControlTray) :
  code <> 200 ->
  connected (snd (update_status (Ok code) self)) = false /\
  connected (snd (update_status (Raise e) self)) = false /\
  fst (update_status (Ok code) self) = Ok true /\
  fst (update_status (Raise e) self) = Ok true /\
  (forall replies, exists self', poll_loop replies self = Ok self').
Proof.
  intros Hc. unfold update_status.
  destruct (Z.eqb_spec code 200) as [E|E]; [contradiction|].
  repeat split; try reflexivity. intros replies. apply poll_loop_total.
Qed.

End Liveness.

(** ** Runs on concrete machines *)

Section Runs.

Import Fixture.

(** C1. The temporary file outlives a failed capture. On an X11 machine
    where scrot exits 0 but leaves a file that is not an image, the capture
    raises the decoder's exception and the temporary file is still there
    afterwards, with what scrot wrote: [os.unlink] is reached only when the
    capture succeeds. *)
Theorem take_screenshot_leaks_tmp_file_on_failure :
  fst (take_screenshot (machine 0 0 0 not_an_image "") libs "png" 80 (boot None))
  = Raise UnidentifiedImageError /\
  fs (snd (take_screenshot (machine 0 0 0 not_an_image "") libs "png" 80 (boot None)))
    !! tmp_path = Some not_an_image.
Proof. split; vm_compute; reflexivity. Qed.

(** The same when scrot itself fails: the empty temporary file stays. *)
Lemma take_screenshot_leaks_tmp_file_on_scrot_failure :
  fst (take_screenshot (machine 0 1 0 png_RGB "") libs "png" 80 (boot None))
  = Raise (CalledProcessError ["scrot"; "-o"; tmp_path] 1) /\
  fs (snd (take_screenshot (machine 0 1 0 png_RGB "") libs "png" 80 (boot None)))
    !! tmp_path = Some [].
Proof. split; vm_compute; reflexivity. Qed.

(** Under Wayland with a failing grim, gnome-screenshot is run next. *)
Lemma capture_backend_follows_session_witness :
  spawned (snd (take_screenshot (machine 1 0 0 png_RGBA "") libs "jpeg" 80
                  (boot (Some "wayland"))))
  = [["grim"; tmp_path]; ["gnome-screenshot"; "-f"; tmp_path]].
Proof.
  destruct (capture_backend_follows_session (machine 1 0 0 png_RGBA "") libs
              "jpeg" 80 (boot (Some "wayland")) tmp_path eq_refl) as [Hw _].
  destruct (Hw eq_refl) as [Hnz _]. apply Hnz.
  eexists _, _. split; [reflexivity|]. simpl. lia.
Defined.

(** Two requests are served on one and the same worker. *)
Lemma bridge_requests_share_one_worker :
  ~ own_worker (fst (serve (machine 0 0 0 [] "") libs GUIBridgeServer_init
                       [get_request "/health"; get_request "/mouse/position"]
                       (boot None))).
Proof.
  intros H. apply (H 1%nat 1%nat 0%nat 1%nat); simpl; auto.
Qed.

(** A click with an unknown button name clicks button 1 and succeeds. *)
Lemma click_button_index_witness :
  fst (click (machine 0 0 0 [] "") (VInt 5) (VInt 5) (VStr "nonsense") (boot None))
  = Ok true /\
  spawned (snd (click (machine 0 0 0 [] "") (VInt 5) (VInt 5) (VStr "nonsense")
                  (boot None)))
  = [["xdotool"; "mousemove"; "5"; "5"]; ["xdotool"; "click"; "1"]].
Proof.
  destruct (click_button_index (machine 0 0 0 [] "") 5 5 "nonsense" (boot None))
    as (btn & _ & _ & _ & _ & Hother & Hrun).
  assert (Hb : btn = "1") by (apply Hother; discriminate).
  subst btn. apply Hrun; eexists _, _; (split; [reflexivity|]); reflexivity.
Defined.

(** A source image of mode LA has an alpha band, and its JPEG capture raises
    instead of returning an RGB JPEG. *)
Lemma jpeg_capture_of_LA_raises :
  (exists img, png_decode libs png_LA = Some img /\ has_alpha (mode img) = true) /\
  fst (take_screenshot (machine 0 0 0 png_LA "") libs "jpeg" 80 (boot None))
  = Raise OSError /\
  ~ jpeg_capture_is_RGB (machine 0 0 0 png_LA "") libs "jpeg" 80 (boot None).
Proof.
  assert (Hr : fst (take_screenshot (machine 0 0 0 png_LA "") libs "jpeg" 80 (boot None))
               = Raise OSError) by (vm_compute; reflexivity).
  split; [eexists; split; reflexivity|]. split; [exact Hr|].
  intros (rgb & b & _ & _ & Hok). rewrite Hr in Hok. discriminate.
Qed.

(** An RGBA screenshot is captured as the JPEG of its RGB conversion. *)
Lemma jpeg_capture_flattens_RGBA_witness :
  fst (take_screenshot (machine 0 0 0 png_RGBA "") libs "JPEG" 80 (boot None))
  = Ok [Byte.x10; Byte.x20; Byte.x30; Byte.xff; Byte.x50].
Proof.
  eapply (jpeg_capture_flattens_RGBA (machine 0 0 0 png_RGBA "") libs "JPEG" 80
            (boot None) tmp_path); try reflexivity.
Defined.

(** A double click at (7, 9) on a machine where xdotool works. *)
Lemma double_click_warps_once_witness :
  spawned (snd (double_click (machine 0 0 0 [] "") (VInt 7) (VInt 9) (boot None)))
  = [["xdotool"; "mousemove"; "7"; "9"];
     ["xdotool"; "click"; "--repeat"; "2"; "1"]].
Proof.
  apply (double_click_warps_once (machine 0 0 0 [] "") 7 9 (boot None)).
  eexists _, _. split; reflexivity.
Defined.

(** POST /mouse/scroll without fields scrolls 3 times, not 0 times. *)
Lemma scroll_amount_defaults_to_3 :
  spawned (snd (do_POST (machine 0 0 0 [] "") libs
                  (post "/mouse/scroll" (Some "2") empty_object) (boot None)))
  = [["xdotool"; "click"; "--repeat"; "3"; "5"]] /\
  spawned (snd (do_POST (machine 0 0 0 [] "") libs
                  (post "/mouse/scroll" (Some "2") empty_object) (boot None)))
  <> [["xdotool"; "click"; "--repeat"; "0"; "5"]].
Proof. split; [vm_compute; reflexivity|vm_compute; discriminate]. Qed.

(** POST /click with a body that gives x only: y is 0, the button left. *)
Lemma post_absent_fields_use_defaults_witness :
  exists success w',
    click (machine 0 0 0 [] "") (VInt 5) (VInt 0) (VStr "left") (boot None)
    = (Ok success, w') /\
    do_POST (machine 0 0 0 [] "") (libs_loading (VDict [("x", VInt 5)]))
      (post "/click" (Some "7") [Byte.x7b; Byte.x7d]) (boot None)
    = _send_json (success_dict success) 200 w' /\
    wfile (snd (do_POST (machine 0 0 0 [] "") (libs_loading (VDict [("x", VInt 5)]))
                  (post "/click" (Some "7") [Byte.x7b; Byte.x7d]) (boot None)))
    = [{| status := 200; headers := json_headers;
          body := JsonBody (VDict [("success", VBool success)]) |}].
Proof.
  apply (post_absent_fields_use_defaults (machine 0 0 0 [] "")
           (libs_loading (VDict [("x", VInt 5)]))
           (post "/click" (Some "7") [Byte.x7b; Byte.x7d]) [("x", VInt 5)]
           (boot None)).
  - right. right. exists "7", 7, [Byte.x7b; Byte.x7d].
    split; [reflexivity|]. split; [reflexivity|]. split; [lia|].
    split; reflexivity.
  - reflexivity.
Defined.

(** A 503 and a refused connection. *)
Lemma liveness_poll_disconnected_witness :
  connected (snd (update_status (Ok 503) tray)) = false /\
  connected (snd (update_status (Raise RequestException) tray)) = false /\
  fst (update_status (Ok 503) tray) = Ok true /\
  fst (update_status (Raise RequestException) tray) = Ok true /\
  (forall replies, exists self', poll_loop replies tray = Ok self').
Proof. apply (liveness_poll_disconnected 503 RequestException tray). lia. Defined.

(** GET /mouse/position on a machine where xdotool exits 1. *)
Lemma mouse_position_never_500_witness :
  exists r,
    wfile (snd (do_GET (machine 0 0 1 [] "") libs (get_request "/mouse/position")
                  (boot None))) = [r] /\ status r = 200.
Proof.
  apply (mouse_position_never_500 (machine 0 0 1 [] "") libs
           (get_request "/mouse/position") (boot None) eq_refl).
Defined.

End Runs.

(** ** Text and numerals *)

Section Text.

(** *** Decimal numerals: [int(str(z)) = z] *)

Lemma int_digits_acc d acc :
  int_digits (NilEmpty.string_of_uint d) (Z.pos acc) true
  = Some (Z.pos (Pos.of_uint_acc d acc)).
Proof.
  revert acc. induction d; intros acc; simpl; try reflexivity.
  all: rewrite <- IHd; f_equal;
    try match goal with
        | |- context [digit_val ?c] =>
            let v := eval vm_compute in (digit_val c) in
            change (digit_val c) with v
        end; lia.
Qed.

Lemma int_digits_uint d b :
  d <> Decimal.Nil \/ b = true ->
  int_digits (NilEmpty.string_of_uint d) 0 b = Some (Z.of_N (Pos.of_uint d)).
Proof.
  revert b. induction d; intros b Hb; simpl.
  - destruct Hb as [Hb| ->]; [contradiction|reflexivity].
  - apply IHd. right. reflexivity.
  - apply (int_digits_acc d 1).
  - apply (int_digits_acc d 2).
  - apply (int_digits_acc d 3).
  - apply (int_digits_acc d 4).
  - apply (int_digits_acc d 5).
  - apply (int_digits_acc d 6).
  - apply (int_digits_acc d 7).
  - apply (int_digits_acc d 8).
  - apply (int_digits_acc d 9).
Qed.



Lemma string_forall_impl (p q : ascii -> bool) s :
  (forall c, p c = true -> q c = true) ->
  string_forall p s = true -> string_forall q s = true.
Proof.
  intros Hpq. induction s as [|c r IH]; simpl; [reflexivity|].
  rewrite !andb_true_iff. intros [Hc Hr]. auto.
Qed.

Lemma string_forall_app p a b :
  string_forall p (a +:+ b) = string_forall p a && string_forall p b.
Proof.
  induction a as [|c r IH]; [reflexivity|].
  change (p c && string_forall p (r +:+ b)
          = p c && string_forall p r && string_forall p b).
  rewrite IH, andb_assoc. reflexivity.
Qed.

Lemma string_forall_rev p s acc :
  string_forall p (rev_string s acc) = string_forall p s && string_forall p acc.
Proof.
  revert acc. induction s as [|c r IH]; intros acc; simpl; [reflexivity|].
  rewrite IH. simpl. rewrite !andb_assoc. f_equal. apply andb_comm.
Qed.

Lemma append_nil_r s : s +:+ "" = s.
Proof.
  induction s as [|c r IH]; [reflexivity|].
  change (String c (r +:+ "") = String c r). f_equal. exact IH.
Qed.

Lemma append_assoc a b c : (a +:+ b) +:+ c = a +:+ (b +:+ c).
Proof.
  induction a as [|x r IH]; [reflexivity|].
  change (String x ((r +:+ b) +:+ c) = String x (r +:+ (b +:+ c))). f_equal. exact IH.
Qed.

Lemma rev_string_rev s a b : rev_string (rev_string s a) b = rev_string a (s +:+ b).
Proof.
  revert a b. induction s as [|c r IH]; intros a b; simpl; [reflexivity|].
  rewrite IH. reflexivity.
Qed.

Lemma rev_string_involutive s : rev_string (rev_string s "") "" = s.
Proof. rewrite rev_string_rev. simpl. apply append_nil_r. Qed.

Lemma lstrip_not_space s : string_forall not_space s = true -> lstrip s = s.
Proof.
  destruct s as [|c r]; simpl; [reflexivity|]. unfold not_space.
  destruct (is_space c); simpl; [discriminate|reflexivity].
Qed.

Lemma strip_not_space s : string_forall not_space s = true -> strip s = s.
Proof.
  intros H. unfold strip, rstrip. rewrite (lstrip_not_space s H).
  rewrite lstrip_not_space.
  - apply rev_string_involutive.
  - rewrite string_forall_rev, H. reflexivity.
Qed.


Lemma uint_digits d : string_forall is_digit (NilEmpty.string_of_uint d) = true.
Proof. induction d; simpl; auto. Qed.

Lemma str_of_int_chars z : string_forall numeral_char (str_of_int z) = true.
Proof.
  assert (Hd : forall d, string_forall numeral_char (NilZero.string_of_uint d) = true).
  { intros d. destruct d; try reflexivity;
      apply (string_forall_impl is_digit); try apply uint_digits;
      intros c Hc; unfold numeral_char; rewrite Hc; reflexivity. }
  unfold str_of_int. destruct (Z.to_int z); simpl; auto.
Qed.

Lemma numeral_char_not_space c : numeral_char c = true -> not_space c = true.
Proof. destruct c as [[] [] [] [] [] [] [] []]; vm_compute; auto. Qed.

Lemma is_digit_not_space c : is_digit c = true -> not_space c = true.
Proof. destruct c as [[] [] [] [] [] [] [] []]; vm_compute; auto. Qed.

Lemma is_digit_not_int_space c : is_digit c = true -> not_int_space c = true.
Proof. destruct c as [[] [] [] [] [] [] [] []]; vm_compute; auto. Qed.

Lemma int_lstrip_not_space s :
  string_forall not_int_space s = true -> int_lstrip s = s.
Proof.
  destruct s as [|c r]; simpl; [reflexivity|]. unfold not_int_space.
  destruct (is_int_space c); simpl; [discriminate|reflexivity].
Qed.

Lemma int_strip_not_space s :
  string_forall not_int_space s = true -> int_strip s = s.
Proof.
  intros H. unfold int_strip. rewrite (int_lstrip_not_space s H).
  rewrite int_lstrip_not_space.
  - apply rev_string_involutive.
  - rewrite string_forall_rev, H. reflexivity.
Qed.

Lemma int_of_str_digits s z :
  string_forall is_digit s = true -> int_digits s 0 false = Some z ->
  int_of_str s = Ok z /\ int_of_str (String "-" s) = Ok (- z).
Proof.
  intros Hd Hz.
  assert (Hs : string_forall not_int_space s = true)
    by (apply (string_forall_impl is_digit); auto using is_digit_not_int_space).
  unfold int_of_str. rewrite (int_strip_not_space s Hs).
  rewrite (int_strip_not_space (String "-" s)) by (simpl; rewrite Hs; reflexivity).
  rewrite Hz. split; [|reflexivity].
  destruct s as [|c r]; [discriminate|].
  simpl in Hd. apply andb_true_iff in Hd as [Hc _].
  destruct c as [[] [] [] [] [] [] [] []]; try discriminate Hc; reflexivity.
Qed.

Lemma int_of_str_str_of_int z : int_of_str (str_of_int z) = Ok z.
Proof.
  unfold str_of_int. destruct z as [|p|p]; [reflexivity| |].
  - pose proof (Unsigned.to_uint_nonnil p) as Hn.
    pose proof (int_digits_uint (Pos.to_uint p) false (or_introl Hn)) as Hd.
    rewrite DecimalPos.Unsigned.of_to in Hd.
    destruct (int_of_str_digits _ _ (uint_digits (Pos.to_uint p)) Hd) as [H _].
    simpl. unfold NilZero.string_of_uint.
    destruct (Pos.to_uint p); try contradiction; exact H.
  - pose proof (Unsigned.to_uint_nonnil p) as Hn.
    pose proof (int_digits_uint (Pos.to_uint p) false (or_introl Hn)) as Hd.
    rewrite DecimalPos.Unsigned.of_to in Hd.
    destruct (int_of_str_digits _ _ (uint_digits (Pos.to_uint p)) Hd) as [_ H].
    simpl. unfold NilZero.string_of_uint.
    destruct (Pos.to_uint p); try contradiction; exact H.
Qed.

(** *** Splitting on whitespace *)
Lemma rev_string_nonempty s c acc : rev_string s (String c acc) <> "".
Proof.
  revert c acc. induction s as [|x r IH]; intros c acc; simpl; [discriminate|apply IH].
Qed.

Lemma split_ws_aux_spaces sp cur :
  string_forall is_space sp = true ->
  split_ws_aux sp cur = match cur with "" => [] | _ => [rev_string cur ""] end.
Proof.
  revert cur. induction sp as [|c r IH]; intros cur H; simpl in *; [reflexivity|].
  apply andb_true_iff in H as [Hc Hr]. rewrite Hc.
  destruct cur; rewrite (IH "" Hr); reflexivity.
Qed.

Lemma split_ws_aux_app_spaces s sp cur :
  string_forall is_space sp = true ->
  split_ws_aux (s +:+ sp) cur = split_ws_aux s cur.
Proof.
  intros Hsp. revert cur. induction s as [|c r IH]; intros cur.
  - change ("" +:+ sp) with sp. rewrite (split_ws_aux_spaces sp cur Hsp). reflexivity.
  - change (String c r +:+ sp) with (String c (r +:+ sp)). simpl.
    destruct (is_space c); [destruct cur|]; rewrite ?IH; reflexivity.
Qed.

Lemma lstrip_split s : exists sp, string_forall is_space sp = true /\ s = sp +:+ lstrip s.
Proof.
  induction s as [|c r (sp & Hsp & IH)]; [exists ""; auto|]. simpl.
  destruct (is_space c) eqn:Hc.
  - exists (String c sp). simpl. rewrite Hc, Hsp. split; [reflexivity|].
    change (String c sp +:+ lstrip r) with (String c (sp +:+ lstrip r)). congruence.
  - exists "". auto.
Qed.

Lemma rev_string_app a b acc : rev_string (a +:+ b) acc = rev_string b (rev_string a acc).
Proof.
  revert acc. induction a as [|c r IH]; intros acc; [reflexivity|].
  change (String c r +:+ b) with (String c (r +:+ b)). simpl. apply IH.
Qed.

Lemma rev_string_acc s acc : rev_string s acc = rev_string s "" +:+ acc.
Proof.
  revert acc. induction s as [|c r IH]; intros acc; simpl; [reflexivity|].
  rewrite (IH (String c acc)), (IH (String c "")), append_assoc. reflexivity.
Qed.

Lemma rstrip_split s : exists sp, string_forall is_space sp = true /\ s = rstrip s +:+ sp.
Proof.
  destruct (lstrip_split (rev_string s "")) as (sp & Hsp & E).
  exists (rev_string sp ""). split.
  - rewrite string_forall_rev, Hsp. reflexivity.
  - unfold rstrip. rewrite <- rev_string_acc, <- rev_string_app, <- E.
    symmetry. apply rev_string_involutive.
Qed.

Lemma split_ws_lstrip s : split_ws (lstrip s) = split_ws s.
Proof.
  unfold split_ws. induction s as [|c r IH]; simpl; [reflexivity|].
  destruct (is_space c) eqn:Hc; [exact IH|]. simpl. rewrite Hc. reflexivity.
Qed.

Lemma split_ws_rstrip s : split_ws (rstrip s) = split_ws s.
Proof.
  destruct (rstrip_split s) as (sp & Hsp & E). unfold split_ws.
  rewrite E at 2. rewrite split_ws_aux_app_spaces by exact Hsp. reflexivity.
Qed.

Lemma split_ws_strip s : split_ws (strip s) = split_ws s.
Proof. unfold strip. rewrite split_ws_rstrip. apply split_ws_lstrip. Qed.

Lemma split_ws_aux_word w rest cur :
  string_forall not_space w = true ->
  split_ws_aux (w +:+ rest) cur = split_ws_aux rest (rev_string w cur).
Proof.
  revert cur. induction w as [|c r IH]; intros cur H; [reflexivity|].
  simpl in H. apply andb_true_iff in H as [Hc Hr].
  change (String c r +:+ rest) with (String c (r +:+ rest)). simpl.
  unfold not_space in Hc. destruct (is_space c); [discriminate|]. apply IH. exact Hr.
Qed.

(** The first word of a text that starts with a field. *)
Lemma split_ws_field f rest :
  is_field f ->
  (rest = "" \/ exists c t, rest = String c t /\ is_space c = true) ->
  exists more, split_ws (f +:+ rest) = f :: more /\
               (forall c t, rest = String c t -> more = split_ws t).
Proof.
  intros [Hne Hf] Hrest. unfold split_ws. rewrite (split_ws_aux_word f rest "" Hf).
  assert (Hcur : exists c acc, rev_string f "" = String c acc).
  { destruct f as [|a f']; [contradiction|]. simpl.
    destruct (rev_string f' (String a "")) eqn:E; [|eauto].
    exfalso. exact (rev_string_nonempty _ _ _ E). }
  destruct Hcur as (c0 & acc & Hcur).
  assert (Hrev : rev_string (rev_string f "") "" = f) by apply rev_string_involutive.
  destruct Hrest as [-> | (c & t & -> & Hc)].
  - exists []. simpl. rewrite Hcur in *. rewrite Hrev. split; [reflexivity|discriminate].
  - exists (split_ws_aux t ""). simpl. rewrite Hc. rewrite Hcur in *. rewrite Hrev.
    split; [reflexivity|]. intros c' t' [= <- <-]. reflexivity.
Qed.

Lemma split_on_none sep s :
  string_forall (fun c => negb (Ascii.eqb c sep)) s = true -> split_on sep s = [s].
Proof.
  induction s as [|c r IH]; simpl; [reflexivity|].
  intros H. apply andb_true_iff in H as [Hc Hr].
  destruct (Ascii.eqb c sep); [discriminate|]. rewrite (IH Hr). reflexivity.
Qed.

Lemma numeral_char_not_colon c : numeral_char c = true -> not_colon c = true.
Proof. destruct c as [[] [] [] [] [] [] [] []]; vm_compute; auto. Qed.

Lemma str_of_int_not_space z : string_forall not_space (str_of_int z) = true.
Proof.
  apply (string_forall_impl numeral_char);
    auto using numeral_char_not_space, str_of_int_chars.
Qed.

Lemma str_of_int_not_colon z : string_forall not_colon (str_of_int z) = true.
Proof.
  apply (string_forall_impl numeral_char);
    auto using numeral_char_not_colon, str_of_int_chars.
Qed.

Lemma tagged_field (tag : ascii) z :
  not_space tag = true ->
  is_field (String tag (String ":" (str_of_int z))).
Proof.
  intros Ht. split; [discriminate|]. simpl. rewrite Ht. simpl.
  apply str_of_int_not_space.
Qed.

Lemma tagged_value (tag : ascii) z :
  not_colon tag = true ->
  index (split_on ":" (String tag (String ":" (str_of_int z)))) 1
  = Ok (str_of_int z).
Proof.
  intros Ht. simpl. unfold not_colon in Ht.
  destruct (Ascii.eqb tag ":"); [discriminate|].
  rewrite (split_on_none ":" (str_of_int z) (str_of_int_not_colon z)). reflexivity.
Qed.

Lemma parse_mouse_location_round_trip (x y : Z) (tail : string) :
  (tail = "" \/ exists c t, tail = String c t /\ is_space c = true) ->
  parse_mouse_location ("x:" +:+ str_of_int x +:+ " y:" +:+ str_of_int y +:+ tail)
  = Ok (x, y).
Proof.
  intros Htail. unfold parse_mouse_location. rewrite split_ws_strip.
  set (fx := String "x" (String ":" (str_of_int x))).
  set (fy := String "y" (String ":" (str_of_int y))).
  assert (E1 : "x:" +:+ str_of_int x +:+ " y:" +:+ str_of_int y +:+ tail
               = fx +:+ String " " (fy +:+ tail)).
  { reflexivity. }
  rewrite E1.
  destruct (split_ws_field fx (String " " (fy +:+ tail))
              (tagged_field "x" x eq_refl)) as (more & Hparts & Hmore).
  { right. eexists _, _. split; reflexivity. }
  rewrite Hparts. rewrite (Hmore _ _ eq_refl).
  destruct (split_ws_field fy tail (tagged_field "y" y eq_refl) Htail)
    as (more2 & Hparts2 & _).
  rewrite Hparts2. cbn [index nth_error].
  unfold fx, fy. rewrite (tagged_value "x" x eq_refl), (tagged_value "y" y eq_refl).
  rewrite !int_of_str_str_of_int. reflexivity.
Qed.

(** *** Lines of the window list *)
Lemma split_ws_max_spaces n sp r :
  string_forall is_space sp = true ->
  split_ws_max_aux n (sp +:+ r) "" = split_ws_max_aux n r "".
Proof.
  induction sp as [|c s IH]; intros H; [reflexivity|].
  simpl in H. apply andb_true_iff in H as [Hc Hs].
  change (String c s +:+ r) with (String c (s +:+ r)). simpl. rewrite Hc. auto.
Qed.

Lemma split_ws_max_word n w rest c cur :
  string_forall not_space w = true ->
  split_ws_max_aux n (w +:+ rest) (String c cur)
  = split_ws_max_aux n rest (rev_string w (String c cur)).
Proof.
  revert c cur. induction w as [|a r IH]; intros c cur H; [reflexivity|].
  simpl in H. apply andb_true_iff in H as [Ha Hr].
  change (String a r +:+ rest) with (String a (r +:+ rest)). simpl.
  unfold not_space in Ha. destruct (is_space a); [discriminate|]. apply IH. exact Hr.
Qed.

Lemma split_ws_max_end n c r cur :
  is_space c = true -> cur <> "" ->
  split_ws_max_aux n (String c r) cur
  = rev_string cur "" :: split_ws_max_aux (Nat.pred n) r "".
Proof. intros Hc Hcur. destruct cur; [contradiction|]. simpl. rewrite Hc. reflexivity. Qed.

Lemma split_ws_max_field n f g rest :
  is_field f -> is_gap g ->
  split_ws_max_aux (S n) (f +:+ g +:+ rest) "" = f :: split_ws_max_aux n rest "".
Proof.
  intros [Hne Hf] [Hg Hsp].
  destruct f as [|a f']; [contradiction|]. destruct g as [|c g']; [contradiction|].
  simpl in Hf, Hsp. apply andb_true_iff in Hf as [Ha Hf'].
  apply andb_true_iff in Hsp as [Hc Hg'].
  change (String a f' +:+ String c g' +:+ rest)
    with (String a (f' +:+ String c (g' +:+ rest))).
  simpl. unfold not_space in Ha. destruct (is_space a); [discriminate|].
  rewrite (split_ws_max_word (S n) f' _ a "" Hf').
  rewrite (split_ws_max_end (S n) c _ _ Hc (rev_string_nonempty f' a "")).
  rewrite rev_string_rev. simpl. rewrite append_nil_r.
  rewrite (split_ws_max_spaces n g' rest Hg'). reflexivity.
Qed.

(** X9. A line of the window list made of four fields and a title, with any
    whitespace between them, gives one window with exactly these fields: the
    title is the rest of the line, kept whole with the whitespace inside and
    after it. *)
Theorem window_line_round_trip id desktop pid machine title g1 g2 g3 g4 :
  is_field id -> is_field desktop -> is_field pid -> is_field machine ->
  is_gap g1 -> is_gap g2 -> is_gap g3 -> is_gap g4 ->
  (exists c t, title = String c t /\ is_space c = false) ->
  window_of_line (id +:+ g1 +:+ desktop +:+ g2 +:+ pid +:+ g3 +:+ machine +:+ g4 +:+ title)
  = [VDict [("id", VStr id); ("desktop", VStr desktop); ("pid", VStr pid);
            ("machine", VStr machine); ("title", VStr title)]].
Proof.
  intros Hid Hd Hp Hm H1 H2 H3 H4 (c & t & -> & Hc).
  unfold window_of_line, split_ws_max.
  rewrite (split_ws_max_field 3 id g1 _ Hid H1).
  rewrite (split_ws_max_field 2 desktop g2 _ Hd H2).
  rewrite (split_ws_max_field 1 pid g3 _ Hp H3).
  rewrite (split_ws_max_field 0 machine g4 _ Hm H4).
  simpl split_ws_max_aux. rewrite Hc.
  destruct Hid as [Hne _]. destruct id; [contradiction|]. reflexivity.
Qed.

End Text.

(** ** More on the input operations *)

Section Input_more.

Context (host : Host) (libs : Libs).

Lemma lower_ascii_idempotent c : lower_ascii (lower_ascii c) = lower_ascii c.
Proof. destruct c as [[] [] [] [] [] [] [] []]; reflexivity. Qed.

Lemma lower_idempotent s : lower (lower s) = lower s.
Proof.
  induction s as [|c r IH]; simpl; [reflexivity|].
  rewrite lower_ascii_idempotent, IH. reflexivity.
Qed.

Lemma key_map_get_cases k m d :
  key_map_get k m d = d \/ In (key_map_get k m d) (map snd m).
Proof.
  induction m as [|[k' v] r IH]; simpl; [left; reflexivity|].
  destruct (String.eqb k k'); [right; left; reflexivity|].
  destruct IH as [IH|IH]; [left|right; right]; exact IH.
Qed.

Lemma key_map_get_present k m d1 d2 :
  In k (map fst m) -> key_map_get k m d1 = key_map_get k m d2.
Proof.
  induction m as [|[k' v] r IH]; simpl; [contradiction|].
  destruct (String.eqb_spec k k') as [E|E]; [reflexivity|].
  intros [H|H]; [congruence|exact (IH H)].
Qed.

Lemma key_translation_idempotent k :
  let t := key_map_get (lower k) key_map k in
  key_map_get (lower t) key_map t = t.
Proof.
  intros t. destruct (key_map_get_cases (lower k) key_map k) as [H|H]; fold t in H.
  - rewrite H. exact H.
  - simpl in H.
    repeat (destruct H as [H|H]; [rewrite <- H; reflexivity|]). contradiction.
Qed.

(** X3. The key names of [press_key] are normalised once and for all:
    pressing the xdotool name that a key translates to does exactly what
    pressing the key does. *)
Theorem press_key_translation_idempotent (k : string) (w : World) :
  press_key host (VStr (key_map_get (lower k) key_map k)) w
  = press_key host (VStr k) w.
Proof.
  unfold press_key, attempt. unfold_monad.
  rewrite (key_translation_idempotent k). reflexivity.
Qed.

(** X4. A key name that the table knows is recognised in any letter case:
    the key acts as its lower-case spelling does. *)
Theorem press_key_ignores_case (k : string) (w : World) :
  In (lower k) (map fst key_map) ->
  press_key host (VStr k) w = press_key host (VStr (lower k)) w.
Proof.
  intros Hin. unfold press_key, attempt. unfold_monad.
  rewrite lower_idempotent.
  rewrite (key_map_get_present (lower k) key_map k (lower k) Hin). reflexivity.
Qed.

(** X5. An argument that is not text never reaches a process: [type_text],
    [press_key] and [focus_window] then return [False], start nothing and
    leave one log record. *)
Theorem non_text_argument_runs_nothing (v : PyVal) (w : World) :
  (forall s, v <> VStr s) ->
  type_text host v w = (Ok false, logged "Type text failed" TypeError w) /\
  press_key host v w = (Ok false, logged "Press key failed" AttributeError w) /\
  focus_window host v w = (Ok false, logged "Focus window failed" TypeError w).
Proof.
  intros Hv. destruct v; try (exfalso; eapply Hv; reflexivity);
    repeat split; reflexivity.
Qed.

(** X6. A coordinate that [int()] rejects (null, a list, text that is not a
    numeral, an infinite float) never reaches xdotool: [move_mouse], [click]
    and [double_click] return [False], start nothing and leave one log
    record with the exception of [int()]. *)
Theorem bad_coordinate_runs_nothing (x y : PyVal) (s : string) (e : Exn) (w : World) :
  int x = Raise e \/ (exists xi, int x = Ok xi /\ int y = Raise e) ->
  move_mouse host x y w = (Ok false, logged "Mouse move failed" e w) /\
  click host x y (VStr s) w = (Ok false, logged "Click failed" e w) /\
  double_click host x y w = (Ok false, logged "Double-click failed" e w).
Proof.
  intros H. unfold move_mouse, click, double_click, attempt, warp, mousemove_argv.
  unfold_monad. simpl button_index. cbv beta iota.
  destruct H as [H|(xi & Hx & H)]; rewrite ?Hx, H; repeat split; reflexivity.
Qed.

(** X7. Coordinates given as decimal text act as the numbers they spell. *)
Theorem text_coordinates_act_as_numbers (x y : Z) (button : PyVal) (w : World) :
  move_mouse host (VStr (str_of_int x)) (VStr (str_of_int y)) w
  = move_mouse host (VInt x) (VInt y) w /\
  click host (VStr (str_of_int x)) (VStr (str_of_int y)) button w
  = click host (VInt x) (VInt y) button w /\
  double_click host (VStr (str_of_int x)) (VStr (str_of_int y)) w
  = double_click host (VInt x) (VInt y) w.
Proof.
  unfold move_mouse, click, double_click, attempt, warp, mousemove_argv.
  unfold_monad. unfold int. rewrite !int_of_str_str_of_int.
  repeat split; reflexivity.
Qed.

End Input_more.

Section Pointer.

Context (host : Host) (libs : Libs).


(** X8. What xdotool prints is read back exactly: when it exits 0 having
    printed "x:X y:Y" followed by nothing or by whitespace and anything
    else, [get_mouse_position] returns X and Y, negative values too. *)
Theorem get_mouse_position_round_trip (x y : Z) (tail : string) c files (w : World) :
  spawn host ["xdotool"; "getmouselocation"] w = Some (c, files) ->
  returncode c = 0 ->
  stdout c = "x:" +:+ str_of_int x +:+ " y:" +:+ str_of_int y +:+ tail ->
  (tail = "" \/ exists a t, tail = String a t /\ is_space a = true) ->
  fst (get_mouse_position host w) = Ok [("x", VInt x); ("y", VInt y)].
Proof.
  intros Hs Hz Hout Htail.
  unfold get_mouse_position, query_mouse_location, subprocess_run. unfold_monad.
  rewrite Hs, Hz. simpl. rewrite Hout.
  rewrite (parse_mouse_location_round_trip x y tail Htail). reflexivity.
Qed.

(** X20. [move_mouse] with integer coordinates returns [True] exactly when
    the warp command could be started and exited 0. *)
Theorem move_mouse_true_iff (x y : Z) (w : World) :
  fst (move_mouse host (VInt x) (VInt y) w) = Ok true <->
  exits_zero host ["xdotool"; "mousemove"; str_of_int x; str_of_int y] w.
Proof.
  unfold move_mouse. rewrite attempt_result.
  unfold warp, mousemove_argv, subprocess_run, exits_zero. unfold_monad. simpl.
  destruct (spawn host ["xdotool"; "mousemove"; str_of_int x; str_of_int y] w)
    as [[c f]|]; simpl.
  - destruct (Z.eqb_spec (returncode c) 0) as [E|E]; simpl.
    + split; [intros _; eauto|reflexivity].
    + split; [discriminate|]. intros (c' & f' & [= <- <-] & Hz). contradiction.
  - split; [discriminate|]. intros (c' & f' & Hs & _). discriminate.
Qed.

(** X17. [scroll] runs at most one command. When [str(amount)] has no NUL
    character it runs exactly one: the wheel button is 5 only when the
    direction is exactly the text "down"; any other value, "Down" or a value
    that is not text, scrolls with button 4, and the amount is passed on as
    [str(amount)], unchecked. When [str(amount)] has a NUL character no
    process is started and the call returns [False]. *)
Theorem scroll_runs_one_command (direction amount : PyVal) (w : World) :
  (no_nul (str (repr libs) amount) = true ->
   spawned (snd (scroll host libs direction amount w))
   = spawned w ++ [["xdotool"; "click"; "--repeat"; str (repr libs) amount;
                    if is_str direction "down" then "5" else "4"]] /\
   (direction <> VStr "down" ->
    spawned (snd (scroll host libs direction amount w))
    = spawned w ++ [["xdotool"; "click"; "--repeat"; str (repr libs) amount; "4"]])) /\
  (no_nul (str (repr libs) amount) = false ->
   scroll host libs direction amount w
   = (Ok false, logged "Scroll failed" ValueError w)).
Proof.
  unfold no_nul. split; intros Hn.
  - apply negb_true_iff in Hn.
    assert (H : spawned (snd (scroll host libs direction amount w))
                = spawned w ++ [["xdotool"; "click"; "--repeat"; str (repr libs) amount;
                                 if is_str direction "down" then "5" else "4"]]).
    { unfold scroll. rewrite attempt_spawned. unfold argv_str. rewrite Hn.
      unfold_monad.
      pose proof (subprocess_run_spawned host
                    ["xdotool"; "click"; "--repeat"; str (repr libs) amount;
                     if is_str direction "down" then "5" else "4"] true w) as Hs.
      destruct (subprocess_run host _ true w) as [[c|e] w1]; exact Hs. }
    split; [exact H|]. intros Hd. rewrite H.
    assert (E : is_str direction "down" = false).
    { destruct direction; try reflexivity. simpl.
      destruct (String.eqb_spec s "down"); [congruence|reflexivity]. }
    rewrite E. reflexivity.
  - apply negb_false_iff in Hn. unfold scroll, attempt, argv_str. rewrite Hn.
    reflexivity.
Qed.


End Pointer.

(** ** More on the HTTP handler *)

Section Responses.

Context (host : Host) (libs : Libs).

Lemma silent_take_screenshot fmt q : silent (take_screenshot host libs fmt q).
Proof.
  unfold take_screenshot. apply silent_try; [|intros e; silence].
  assert (Hb : forall p, silent (run_capture_backend host p)).
  { intros p. unfold run_capture_backend. apply silent_bind; [intros w; reflexivity|].
    intros session. silence. }
  apply silent_bind.
  { intros w. unfold NamedTemporaryFile. case_match; reflexivity. }
  intros p. apply silent_bind; [apply Hb|]. intros _.
  apply silent_bind.
  { intros w. unfold Image_open. repeat case_match; reflexivity. }
  intros img. apply silent_bind.
  { intros w. rewrite encode_image_world. reflexivity. }
  intros b. apply silent_bind; [|intros; silence].
  intros w. unfold os_unlink. case_match; reflexivity.
Qed.

Lemma silent_get_windows : silent (get_windows host).
Proof. unfold get_windows. silence. Qed.

Lemma silent__read_json req : silent (_read_json libs req).
Proof. unfold _read_json. silence. Qed.

Lemma answers_send_json (P : Response -> Prop) data st :
  P {| status := st; headers := json_headers; body := JsonBody data |} ->
  answers P (_send_json data st).
Proof. intros HP w. eexists _, _. split; [reflexivity|]. split; [reflexivity|exact HP]. Qed.

Lemma answers_send_error (P : Response -> Prop) e st :
  P {| status := st; headers := json_headers; body := ErrorBody e |} ->
  answers P (_send_error_json e st).
Proof. intros HP w. eexists _, _. split; [reflexivity|]. split; [reflexivity|exact HP]. Qed.

Lemma answers_send_image (P : Response -> Prop) b ct :
  P {| status := 200;
       headers := [("Content-Type", ct); ("Access-Control-Allow-Origin", "*")];
       body := ImageBody b |} ->
  answers P (_send_image b ct).
Proof. intros HP w. eexists _, _. split; [reflexivity|]. split; [reflexivity|exact HP]. Qed.

Lemma answers_weaken P m : answers P m -> answers_or_raises P m.
Proof. intros H w. left. exact (H w). Qed.

Lemma answers_or_raises_bind {A} P (m : M A) (f : A -> M unit) :
  silent m -> (forall a, answers_or_raises P (f a)) ->
  answers_or_raises P (m ≫= f).
Proof.
  intros Hm Hf w. unfold mbind, M_bind. specialize (Hm w).
  destruct (m w) as [[a|e] w1]; simpl in Hm.
  - destruct (Hf a w1) as [(r & w' & E & Hw & HP)|(e & w' & E & Hw)]; rewrite E.
    + left. exists r, w'. rewrite Hw, Hm. auto.
    + right. exists e, w'. rewrite Hw, Hm. auto.
  - right. eauto.
Qed.

Lemma answers_try P (body : M unit) (handler : Exn -> M unit) :
  answers_or_raises P body -> (forall e, answers P (handler e)) ->
  answers P (try_except body handler).
Proof.
  intros Hb Hh w. unfold try_except.
  destruct (Hb w) as [(r & w' & E & Hw & HP)|(e & w' & E & Hw)]; rewrite E.
  - eauto.
  - destruct (Hh e w') as (r & w'' & E' & Hw' & HP). rewrite E'.
    exists r, w''. rewrite Hw', Hw. auto.
Qed.

Lemma answers_logged_error P msg e :
  P {| status := 500; headers := json_headers; body := ErrorBody e |} ->
  answers P (logger_error msg e ;; _send_error_json e 500).
Proof.
  intros HP w. eexists _, _. split; [reflexivity|]. split; [reflexivity|exact HP].
Qed.

Ltac respond :=
  repeat first
    [ apply answers_weaken, answers_send_json
    | apply answers_weaken, answers_send_image
    | apply answers_or_raises_bind;
        [ first [ apply silent_lift | apply silent_take_screenshot
                | apply silent_get_windows | apply silent_get_mouse_position
                | apply silent_click | apply silent_double_click
                | apply silent_move_mouse | apply silent_scroll | apply silent_drag
                | apply silent_type_text | apply silent_press_key
                | apply silent_focus_window | apply silent__read_json ]
        | intros ? ]
    | match goal with
      | |- answers_or_raises _ (if ?x then _ else _) => destruct x
      end ].

Lemma bridge_response_json st data :
  st = 200 \/ st = 404 \/ st = 500 ->
  bridge_response {| status := st; headers := json_headers; body := JsonBody data |}.
Proof. intros H. split; [right; left; reflexivity|exact H]. Qed.

Lemma do_GET_answers req : answers bridge_response (do_GET host libs req).
Proof.
  unfold do_GET. apply answers_try.
  - respond; try (apply bridge_response_json; auto).
    split; [right; left; reflexivity|left; reflexivity].
  - intros e. apply answers_logged_error.
    split; [right; left; reflexivity|auto].
Qed.

Lemma do_POST_answers req : answers bridge_response (do_POST host libs req).
Proof.
  unfold do_POST. apply answers_try.
  - respond; apply bridge_response_json; auto.
  - intros e. apply answers_logged_error.
    split; [right; left; reflexivity|auto].
Qed.

(** X11. Every OPTIONS request, and every GET or POST request whose target
    [urlparse] accepts, is answered with exactly one response; it allows any
    origin, and its status is 200, 404 or 500: no failure of a backend or of
    the request's content leaves such a request without a response or with
    two. A GET or POST whose target [urlparse] rejects gets no response at
    all: the exception leaves the method before its [try], and nothing is
    written, run or logged. *)
Theorem every_request_gets_one_response (req : Request) (w : World) :
  (command req = "OPTIONS" \/
   ((command req = "GET" \/ command req = "POST") /\ target_parses req = true) ->
   exists r,
     wfile (handle_one_request host libs req w) = wfile w ++ [r] /\
     allows_any_origin r /\
     (status r = 200 \/ status r = 404 \/ status r = 500)) /\
  (command req = "GET" \/ command req = "POST" ->
   target_parses req = false ->
   handle_one_request host libs req w = w).
Proof.
  unfold handle_one_request, do_GET_method, do_POST_method. split.
  - intros [H|[[H|H] Ht]]; rewrite H, ?Ht; simpl.
    + eexists. split; [reflexivity|]. split; [left; reflexivity|auto].
    + destruct (do_GET_answers req w) as (r & w' & E & Hw & HP). rewrite E. eauto.
    + destruct (do_POST_answers req w) as (r & w' & E & Hw & HP). rewrite E. eauto.
  - intros [H|H] Ht; rewrite H, Ht; reflexivity.
Qed.

End Responses.

Section Routes.

Context (host : Host) (libs : Libs).

(** X13. A quality that is not a numeral is refused before anything is
    captured: GET /screenshot answers 500 with the exception of [int()],
    for png as well, having started no process and created no file. *)
Theorem bad_quality_is_500_without_capture req fmt e (w : World) :
  path req = "/screenshot" ->
  param (query req) "format" "jpeg" = Ok fmt ->
  quality_param (query req) = Raise e ->
  do_GET host libs req w
  = _send_error_json e 500 (logged "GET /screenshot error" e w) /\
  spawned (snd (do_GET host libs req w)) = spawned w /\
  fs (snd (do_GET host libs req w)) = fs w.
Proof.
  intros Hp Hf Hq.
  assert (E : do_GET host libs req w
              = _send_error_json e 500 (logged "GET /screenshot error" e w)).
  { unfold do_GET. rewrite Hp. simpl. unfold_monad. rewrite Hf, Hq. reflexivity. }
  rewrite E. auto.
Qed.

(** X14. The Content-Type of a raw screenshot follows the exact spelling of
    the format, while the encoding follows its lower-case spelling: the
    response is image/jpeg only for "jpeg", so for a format such as "JPEG"
    the bytes that [take_screenshot] encoded as JPEG are sent as
    image/png. *)
Theorem screenshot_content_type req fmt q rb b (w w' : World) :
  path req = "/screenshot" ->
  param (query req) "format" "jpeg" = Ok fmt ->
  quality_param (query req) = Ok q ->
  param (query req) "return_base64" "false" = Ok rb ->
  lower rb <> "true" ->
  take_screenshot host libs fmt q w = (Ok b, w') ->
  do_GET host libs req w
  = _send_image b (if String.eqb fmt "jpeg" then "image/jpeg" else "image/png") w' /\
  (lower fmt = "jpeg" -> fmt <> "jpeg" ->
   do_GET host libs req w = _send_image b "image/png" w').
Proof.
  intros Hp Hf Hq Hrb Hne Ht.
  assert (E : do_GET host libs req w
              = _send_image b (if String.eqb fmt "jpeg" then "image/jpeg"
                               else "image/png") w').
  { unfold do_GET. rewrite Hp. simpl. unfold_monad. rewrite Hf, Hq, Hrb, Ht.
    apply String.eqb_neq in Hne. rewrite Hne. reflexivity. }
  split; [exact E|]. intros _ Hx. rewrite E.
  apply String.eqb_neq in Hx. rewrite Hx. reflexivity.
Qed.

(** X15. With return_base64 set to "true" in any letter case, the same
    bytes are sent as a JSON object with success, the format as requested
    and the base64 text of the bytes. *)
Theorem screenshot_base64_envelope req fmt q rb b (w w' : World) :
  path req = "/screenshot" ->
  param (query req) "format" "jpeg" = Ok fmt ->
  quality_param (query req) = Ok q ->
  param (query req) "return_base64" "false" = Ok rb ->
  lower rb = "true" ->
  take_screenshot host libs fmt q w = (Ok b, w') ->
  do_GET host libs req w
  = _send_json (VDict [("success", VBool true); ("format", VStr fmt);
                       ("data", VStr (b64encode libs b))]) 200 w'.
Proof.
  intros Hp Hf Hq Hrb He Ht.
  unfold do_GET. rewrite Hp. simpl. unfold_monad. rewrite Hf, Hq, Hrb, Ht, He.
  reflexivity.
Qed.

(** A failed capture is answered 500 with its exception. *)
Lemma screenshot_failure_is_500 req fmt q rb e (w w' : World) :
  path req = "/screenshot" ->
  param (query req) "format" "jpeg" = Ok fmt ->
  quality_param (query req) = Ok q ->
  param (query req) "return_base64" "false" = Ok rb ->
  take_screenshot host libs fmt q w = (Raise e, w') ->
  do_GET host libs req w
  = _send_error_json e 500 (logged "GET /screenshot error" e w').
Proof.
  intros Hp Hf Hq Hrb Ht.
  unfold do_GET. rewrite Hp. simpl. unfold_monad. rewrite Hf, Hq, Hrb, Ht.
  reflexivity.
Qed.


(** X21. A JSON body that is not an object (a list, a number, text, null)
    is answered 500 on every route that reads a field, with no command run,
    and 404 on any other path. *)
Theorem non_object_body req v (w : World) :
  _read_json libs req w = (Ok v, w) ->
  (forall d, v <> VDict d) ->
  (defaulted_call host libs (path req) <> None ->
     do_POST host libs req w
     = _send_error_json AttributeError 500
         (logged ("POST " +:+ path req +:+ " error") AttributeError w)) /\
  (defaulted_call host libs (path req) = None ->
     do_POST host libs req w = _send_json not_found 404 w).
Proof.
  intros Hr Hv.
  assert (Hget : forall k d, get v k d = Raise AttributeError).
  { intros k d. destruct v; try reflexivity. exfalso. eapply Hv. reflexivity. }
  unfold do_POST, defaulted_call.
  rewrite (try_bind_ok _ _ _ _ _ _ Hr).
  split; intros Hk;
    repeat (case_match;
            [first [ discriminate Hk
                   | unfold try_except, mbind, M_bind, lift; rewrite Hget; reflexivity ]|]);
    first [reflexivity | contradiction].
Qed.

(** X10. A GET on a path that is not a route is answered 404 "Not found",
    and nothing else changes; so is a POST on a path that is not a route
    whenever its body can be read. *)
Theorem unknown_route_is_404 req v (w : World) :
  (path req <> "/health" -> path req <> "/screenshot" ->
   path req <> "/mouse/position" -> path req <> "/ui/windows" ->
   do_GET host libs req w = _send_json not_found 404 w) /\
  (defaulted_call host libs (path req) = None ->
   _read_json libs req w = (Ok v, w) ->
   do_POST host libs req w = _send_json not_found 404 w).
Proof.
  split.
  - intros H1 H2 H3 H4. unfold do_GET.
    apply String.eqb_neq in H1, H2, H3, H4. rewrite H1, H2, H3, H4. reflexivity.
  - intros Hk Hr. unfold do_POST, defaulted_call in *.
    rewrite (try_bind_ok _ _ _ _ _ _ Hr).
    repeat (case_match; [discriminate Hk|]). reflexivity.
Qed.

End Routes.

(** ** More on the capture, the server, the poll and the autostart entry *)

Section Capture_log.

Context (host : Host) (libs : Libs).

Lemma subprocess_run_log argv check w :
  log (snd (subprocess_run host argv check w)) = log w.
Proof. unfold subprocess_run. repeat case_match; reflexivity. Qed.

Lemma run_capture_backend_log p w :
  log (snd (run_capture_backend host p w)) = log w.
Proof.
  unfold run_capture_backend. unfold_monad. case_match.
  - pose proof (subprocess_run_log ["grim"; p] false w) as H1.
    destruct (subprocess_run host ["grim"; p] false w) as [[c|e] w1]; simpl in *;
      [|exact H1].
    case_match; simpl; [|exact H1].
    pose proof (subprocess_run_log ["gnome-screenshot"; "-f"; p] false w1) as H2.
    destruct (subprocess_run host ["gnome-screenshot"; "-f"; p] false w1)
      as [[c2|e2] w2]; simpl in *; congruence.
  - pose proof (subprocess_run_log ["scrot"; "-o"; p] true w) as H1.
    destruct (subprocess_run host ["scrot"; "-o"; p] true w) as [[c|e] w1];
      exact H1.
Qed.

(** X2. A capture that fails is logged once, with its cause, and raises
    that same exception; a capture that succeeds logs nothing. *)
Theorem take_screenshot_logs_failures fmt q (w : World) :
  match fst (take_screenshot host libs fmt q w) with
  | Ok _ => log (snd (take_screenshot host libs fmt q w)) = log w
  | Raise e =>
      log (snd (take_screenshot host libs fmt q w))
      = log w ++ [{| message := "Screenshot failed"; cause := e |}]
  end.
Proof.
  unfold take_screenshot, NamedTemporaryFile, Image_open, os_unlink. unfold_monad.
  destruct (mkstemp host ".png" w) as [p|]; simpl; [|reflexivity].
  fold (with_tmp p w).
  pose proof (run_capture_backend_log p (with_tmp p w)) as Hb.
  destruct (run_capture_backend host p (with_tmp p w)) as [[[]|e] w1]; simpl in *;
    [|rewrite Hb; reflexivity].
  destruct (fs w1 !! p) as [c|] eqn:Hf; simpl; [|rewrite Hb; reflexivity].
  destruct (png_decode libs c) as [img|]; simpl; [|rewrite Hb; reflexivity].
  pose proof (encode_image_world libs fmt q img w1) as Hw.
  destruct (encode_image libs fmt q img w1) as [[b|e] w2]; simpl in *; subst w2;
    [rewrite Hf|]; simpl; rewrite Hb; reflexivity.
Qed.

End Capture_log.

Section Server_more.

Context (host : Host) (libs : Libs).

Lemma handle_one_request_responses req w :
  exists rs, wfile (handle_one_request host libs req w) = wfile w ++ rs /\
             length rs = if answered req then 1%nat else 0%nat.
Proof.
  unfold handle_one_request, do_GET_method, do_POST_method, answered.
  destruct (String.eqb (command req) "GET") eqn:Hg; simpl.
  - destruct (target_parses req); simpl.
    + destruct (do_GET_answers host libs req w) as (r & w' & E & Hw & _).
      rewrite E. exists [r]. auto.
    + exists []. rewrite app_nil_r. auto.
  - destruct (String.eqb (command req) "POST") eqn:Hp; simpl.
    + destruct (target_parses req); simpl.
      * destruct (do_POST_answers host libs req w) as (r & w' & E & Hw & _).
        rewrite E. exists [r]. auto.
      * exists []. rewrite app_nil_r. auto.
    + rewrite orb_true_r.
      destruct (String.eqb (command req) "OPTIONS"); eexists [_]; split; reflexivity.
Qed.

Lemma fold_handle_responses reqs w :
  exists rs,
    wfile (fold_left (fun w req => handle_one_request host libs req w) reqs w)
    = wfile w ++ rs /\ length rs = length (List.filter answered reqs).
Proof.
  revert w. induction reqs as [|req rest IH]; intros w; simpl.
  - exists []. rewrite app_nil_r. auto.
  - destruct (handle_one_request_responses req w) as (r & Hr & Hlen1).
    destruct (IH (handle_one_request host libs req w)) as (rs & Hrs & Hlen).
    exists (r ++ rs). rewrite Hrs, Hr, <- app_assoc. split; [reflexivity|].
    rewrite length_app, Hlen, Hlen1.
    destruct (answered req); reflexivity.
Qed.

(** X22. A started server answers, once each, the requests that can be
    answered: after serving a list of requests the responses written are as
    many as the requests in it other than the GETs and POSTs whose target
    [urlparse] rejects, which get none. *)
Theorem server_answers_every_request self reqs (w : World) :
  can_bind host "127.0.0.1" (port self) = true ->
  exists rs,
    wfile (snd (serve host libs self reqs w)) = wfile w ++ rs /\
    length rs = length (List.filter answered reqs).
Proof.
  intros Hb. unfold serve, start. rewrite Hb. simpl.
  rewrite serve_forever_world. apply fold_handle_responses.
Qed.

End Server_more.

Section Liveness_more.

Lemma poll_loop_app replies1 replies2 self :
  poll_loop (replies1 ++ replies2) self
  = match poll_loop replies1 self with
    | Ok self' => poll_loop replies2 self'
    | Raise e => Raise e
    end.
Proof.
  revert self. induction replies1 as [|r rest IH]; intros self; simpl; [reflexivity|].
  apply IH.
Qed.

(** X18. The tray remembers nothing but the last poll: after any number of
    polls, [connected] is [True] exactly when the last health request was
    answered 200. *)
Theorem connected_follows_last_reply replies reply (self : ScreenControlTray) :
  exists self',
    poll_loop (replies ++ [reply]) self = Ok self' /\
    connected self' = is_up reply.
Proof.
  rewrite poll_loop_app.
  destruct (poll_loop_total replies self) as (s1 & ->). simpl.
  eexists. split; [reflexivity|].
  destruct reply as [code|e]; simpl; [destruct (Z.eqb code 200)|]; reflexivity.
Qed.

Lemma icon_descriptions_app a b :
  icon_descriptions (a ++ b) = icon_descriptions a ++ icon_descriptions b.
Proof. unfold icon_descriptions. rewrite map_app, concat_app. reflexivity. Qed.

Lemma update_status_icons reply self :
  exists n, icon_descriptions (idle (snd (update_status reply self)))
            = icon_descriptions (idle self) ++ repeat "Connected" n.
Proof.
  unfold update_status. destruct reply as [code|e]; simpl.
  - destruct (Z.eqb code 200); simpl; rewrite icon_descriptions_app.
    + destruct (status_item self), (indicator self); simpl;
        first [exists 1%nat; reflexivity | exists 0%nat; reflexivity].
    + exists 0%nat. destruct (status_item self); reflexivity.
  - exists 0%nat. rewrite icon_descriptions_app.
    destruct (status_item self); reflexivity.
Qed.

(** X19. The poll never takes the icon back: whatever the health requests
    answer, every icon change it queues is the one described "Connected".
    Losing the service changes the menu label only. *)
Theorem icon_only_ever_connected replies (self self' : ScreenControlTray) :
  poll_loop replies self = Ok self' ->
  exists n, icon_descriptions (idle self')
            = icon_descriptions (idle self) ++ repeat "Connected" n.
Proof.
  revert self. induction replies as [|r rest IH]; intros self; simpl.
  - intros [= <-]. exists 0%nat. rewrite app_nil_r. reflexivity.
  - intros H. destruct (update_status_icons r self) as (n & Hn).
    unfold update_status in H, Hn. simpl in H, Hn.
    destruct (IH _ H) as (m & Hm). exists (n + m)%nat.
    rewrite Hm, Hn, <- app_assoc, repeat_app. reflexivity.
Qed.

End Liveness_more.

Section Autostart.

Context (can_write can_remove : string -> World -> bool) (home : string).

(** X23. The autostart switch is read back as it was set, where the file
    system lets it be set. Enabling, where the entry can be written, leaves
    the desktop entry in place and [check_autostart] then says [True].
    Disabling does nothing when there is no entry, removes the entry where
    it can be removed, and [check_autostart] then says [False]; where the
    entry cannot be removed the call raises and the entry stays. No other
    file is ever touched. *)
Theorem autostart_round_trip (w : World) :
  (can_write (autostart_file home) w = true ->
   exists w1,
     set_autostart can_write can_remove home true w = (Ok tt, w1) /\
     fst (check_autostart home w1) = Ok true /\
     fs w1 !! autostart_file home = Some (String.list_byte_of_string desktop_entry) /\
     forall p, p <> autostart_file home -> fs w1 !! p = fs w !! p) /\
  (fs w !! autostart_file home = None \/ can_remove (autostart_file home) w = true ->
   exists w0,
     set_autostart can_write can_remove home false w = (Ok tt, w0) /\
     fst (check_autostart home w0) = Ok false /\
     forall p, p <> autostart_file home -> fs w0 !! p = fs w !! p) /\
  (is_Some (fs w !! autostart_file home) ->
   can_remove (autostart_file home) w = false ->
   set_autostart can_write can_remove home false w = (Raise OSError, w) /\
   fst (check_autostart home w) = Ok true).
Proof.
  split; [|split].
  - intros Hw. unfold set_autostart. rewrite Hw. eexists. split; [reflexivity|].
    unfold check_autostart. simpl. rewrite lookup_insert_eq.
    split; [|split; [reflexivity|]].
    + rewrite bool_decide_eq_true_2 by eauto. reflexivity.
    + intros p Hp. apply lookup_insert_ne. congruence.
  - intros Hok. unfold set_autostart, check_autostart, os_remove. unfold_monad.
    destruct (fs w !! autostart_file home) as [c|] eqn:E.
    + destruct Hok as [Hok|Hok]; [discriminate|].
      rewrite bool_decide_eq_true_2 by eauto. rewrite E, Hok.
      eexists. split; [reflexivity|]. simpl. rewrite lookup_delete_eq.
      split; [rewrite bool_decide_eq_false_2 by (intros [? ?]; discriminate);
              reflexivity|].
      intros p Hp. apply lookup_delete_ne. congruence.
    + rewrite bool_decide_eq_false_2 by (intros [? ?]; discriminate).
      eexists. split; [reflexivity|]. simpl. rewrite E.
      split; [rewrite bool_decide_eq_false_2 by (intros [? ?]; discriminate);
              reflexivity|].
      reflexivity.
  - intros [c E] Hno. unfold set_autostart, check_autostart, os_remove. unfold_monad.
    rewrite bool_decide_eq_true_2 by eauto. rewrite E, Hno.
    split; reflexivity.
Qed.

End Autostart.

Section Windows.

Context (host : Host).

Lemma window_of_line_shape line :
  Forall (fun win => exists i d p m t,
            win = VDict [("id", VStr i); ("desktop", VStr d); ("pid", VStr p);
                         ("machine", VStr m); ("title", VStr t)])
         (window_of_line line).
Proof.
  unfold window_of_line. repeat case_match; constructor; eauto 10.
Qed.

(** X24. [get_windows] never raises. Each window it returns has exactly the
    keys id, desktop, pid, machine and title, all text, in this order; and
    when wmctrl cannot be run or exits with a non-zero code the list is
    empty. *)
Theorem get_windows_shape (w : World) :
  exists ws w',
    get_windows host w = (Ok ws, w') /\
    Forall (fun win => exists i d p m t,
              win = VDict [("id", VStr i); ("desktop", VStr d); ("pid", VStr p);
                           ("machine", VStr m); ("title", VStr t)]) ws /\
    (~ exits_zero host ["wmctrl"; "-l"; "-p"] w -> ws = []).
Proof.
  unfold get_windows, subprocess_run, exits_zero. unfold_monad.
  destruct (spawn host ["wmctrl"; "-l"; "-p"] w) as [[c f]|]; simpl.
  - destruct (Z.eqb_spec (returncode c) 0) as [E|E]; simpl.
    + eexists _, _. split; [reflexivity|]. split.
      * apply Forall_concat, Forall_map. apply Forall_forall. intros line _.
        apply window_of_line_shape.
      * intros Hn. exfalso. apply Hn. eauto.
    + eexists _, _. split; [reflexivity|]. split; [constructor|reflexivity].
  - eexists _, _. split; [reflexivity|]. split; [constructor|reflexivity].
Qed.

End Windows.

(** ** More runs on concrete machines *)

Section Runs_more.

Import Fixture.

Lemma take_screenshot_ok_removes_tmp_file_witness :
  fs (snd (take_screenshot (machine 0 0 0 png_RGB "") libs "png" 80 (boot None)))
    !! tmp_path = None.
Proof.
  eapply (take_screenshot_ok_removes_tmp_file (machine 0 0 0 png_RGB "") libs
            "png" 80 (boot None) tmp_path).
  - reflexivity.
  - vm_compute. reflexivity.
Defined.

Lemma press_key_ignores_case_witness :
  press_key (machine 0 0 0 [] "") (VStr "ENTER") (boot None)
  = press_key (machine 0 0 0 [] "") (VStr (lower "ENTER")) (boot None).
Proof.
  apply (press_key_ignores_case (machine 0 0 0 [] "") "ENTER" (boot None)).
  left. reflexivity.
Defined.

Lemma non_text_argument_runs_nothing_witness :
  type_text (machine 0 0 0 [] "") (VInt 3) (boot None)
  = (Ok false, logged "Type text failed" TypeError (boot None)) /\
  press_key (machine 0 0 0 [] "") (VInt 3) (boot None)
  = (Ok false, logged "Press key failed" AttributeError (boot None)) /\
  focus_window (machine 0 0 0 [] "") (VInt 3) (boot None)
  = (Ok false, logged "Focus window failed" TypeError (boot None)).
Proof.
  apply (non_text_argument_runs_nothing (machine 0 0 0 [] "") (VInt 3) (boot None)).
  intros s. discriminate.
Defined.

Lemma bad_coordinate_runs_nothing_witness :
  move_mouse (machine 0 0 0 [] "") VNone (VInt 1) (boot None)
  = (Ok false, logged "Mouse move failed" TypeError (boot None)) /\
  click (machine 0 0 0 [] "") VNone (VInt 1) (VStr "left") (boot None)
  = (Ok false, logged "Click failed" TypeError (boot None)) /\
  double_click (machine 0 0 0 [] "") VNone (VInt 1) (boot None)
  = (Ok false, logged "Double-click failed" TypeError (boot None)).
Proof.
  apply (bad_coordinate_runs_nothing (machine 0 0 0 [] "") VNone (VInt 1) "left"
           TypeError (boot None)).
  left. reflexivity.
Defined.

Lemma get_mouse_position_round_trip_witness :
  fst (get_mouse_position (machine 0 0 0 [] "x:12 y:-3 screen:0 window:1") (boot None))
  = Ok [("x", VInt 12); ("y", VInt (-3))].
Proof.
  eapply (get_mouse_position_round_trip
            (machine 0 0 0 [] "x:12 y:-3 screen:0 window:1") 12 (-3)
            " screen:0 window:1").
  - reflexivity.
  - reflexivity.
  - reflexivity.
  - right. eexists _, _. split; reflexivity.
Defined.

Lemma window_line_round_trip_witness :
  window_of_line "0x01  0 123 host My Title"
  = [VDict [("id", VStr "0x01"); ("desktop", VStr "0"); ("pid", VStr "123");
            ("machine", VStr "host"); ("title", VStr "My Title")]].
Proof.
  apply (window_line_round_trip "0x01" "0" "123" "host" "My Title" "  " " " " " " ");
    try (split; [discriminate|reflexivity]).
  eexists _, _. split; reflexivity.
Defined.

Lemma unknown_route_is_404_witness :
  do_GET (machine 0 0 0 [] "") libs (get_request "/nonexistent") (boot None)
  = _send_json not_found 404 (boot None).
Proof.
  destruct (unknown_route_is_404 (machine 0 0 0 [] "") libs
              (get_request "/nonexistent") VNone (boot None)) as [H _].
  apply H; discriminate.
Defined.

Lemma every_request_gets_one_response_witness :
  exists r,
    wfile (handle_one_request (machine 0 0 0 [] "") libs (get_request "/health")
             (boot None)) = [r] /\
    allows_any_origin r /\ (status r = 200 \/ status r = 404 \/ status r = 500).
Proof.
  destruct (every_request_gets_one_response (machine 0 0 0 [] "") libs
              (get_request "/health") (boot None)) as [H _].
  apply H. right. split; [left|]; reflexivity.
Defined.


Lemma bad_quality_is_500_without_capture_witness :
  spawned (snd (do_GET (machine 0 0 0 png_RGB "") libs
                  (get_query "/screenshot" [("format", ["png"]); ("quality", ["abc"])])
                  (boot None))) = [].
Proof.
  destruct (bad_quality_is_500_without_capture (machine 0 0 0 png_RGB "") libs
              (get_query "/screenshot" [("format", ["png"]); ("quality", ["abc"])])
              "png" ValueError (boot None) eq_refl eq_refl eq_refl) as (_ & H & _).
  exact H.
Defined.

Lemma screenshot_content_type_witness :
  wfile (snd (do_GET (machine 0 0 0 png_RGB "") libs
                (get_query "/screenshot" [("format", ["JPEG"])]) (boot None)))
  = [{| status := 200;
        headers := [("Content-Type", "image/png");
                    ("Access-Control-Allow-Origin", "*")];
        body := ImageBody [Byte.x10; Byte.x20; Byte.x30; Byte.x50] |}].
Proof.
  destruct (screenshot_content_type (machine 0 0 0 png_RGB "") libs
              (get_query "/screenshot" [("format", ["JPEG"])]) "JPEG" 80 "false"
              [Byte.x10; Byte.x20; Byte.x30; Byte.x50] (boot None)
              (snd (take_screenshot (machine 0 0 0 png_RGB "") libs "JPEG" 80 (boot None)))
              eq_refl eq_refl eq_refl eq_refl) as [_ H].
  - discriminate.
  - vm_compute. reflexivity.
  - rewrite H by (reflexivity || discriminate). vm_compute. reflexivity.
Defined.

Lemma screenshot_base64_envelope_witness :
  wfile (snd (do_GET (machine 0 0 0 png_RGB "") libs
                (get_query "/screenshot" [("return_base64", ["TRUE"])]) (boot None)))
  = [{| status := 200; headers := json_headers;
        body := JsonBody (VDict [("success", VBool true); ("format", VStr "jpeg");
                                 ("data", VStr "")]) |}].
Proof.
  rewrite (screenshot_base64_envelope (machine 0 0 0 png_RGB "") libs
             (get_query "/screenshot" [("return_base64", ["TRUE"])]) "jpeg" 80 "TRUE"
             [Byte.x10; Byte.x20; Byte.x30; Byte.x50] (boot None)
             (snd (take_screenshot (machine 0 0 0 png_RGB "") libs "jpeg" 80 (boot None)))
             eq_refl eq_refl eq_refl eq_refl eq_refl).
  - vm_compute. reflexivity.
  - vm_compute. reflexivity.
Defined.



Lemma scroll_runs_one_command_witness :
  spawned (snd (scroll (machine 0 0 0 [] "") libs (VStr "Down") (VInt 2) (boot None)))
  = [["xdotool"; "click"; "--repeat"; "2"; "4"]].
Proof.
  destruct (scroll_runs_one_command (machine 0 0 0 [] "") libs (VStr "Down") (VInt 2)
              (boot None)) as [H _].
  destruct (H eq_refl) as [_ Hup]. apply Hup. discriminate.
Defined.

Lemma icon_only_ever_connected_witness :
  exists n,
    icon_descriptions
      [set_label "Status: Connected"; set_icon_full ICON_FALLBACK "Connected";
       set_label "Status: Service not running"; set_label "Status: Disconnected"]
    = icon_descriptions (idle tray) ++ repeat "Connected" n.
Proof.
  apply (icon_only_ever_connected [Ok 200; Raise RequestException; Ok 503] tray
           {| connected := false; status_item := true; indicator := true;
              idle := [set_label "Status: Connected";
                       set_icon_full ICON_FALLBACK "Connected";
                       set_label "Status: Service not running";
                       set_label "Status: Disconnected"] |}).
  reflexivity.
Defined.

Lemma move_mouse_true_iff_witness :
  fst (move_mouse (machine 0 0 0 [] "") (VInt 3) (VInt 4) (boot None)) = Ok true.
Proof.
  apply (move_mouse_true_iff (machine 0 0 0 [] "") 3 4 (boot None)).
  eexists _, _. split; reflexivity.
Defined.

Lemma non_object_body_witness :
  do_POST (machine 0 0 0 [] "") (libs_loading (VList []))
    (post "/click" (Some "2") [Byte.x5b; Byte.x5d]) (boot None)
  = _send_error_json AttributeError 500
      (logged "POST /click error" AttributeError (boot None)).
Proof.
  destruct (non_object_body (machine 0 0 0 [] "") (libs_loading (VList []))
              (post "/click" (Some "2") [Byte.x5b; Byte.x5d]) (VList []) (boot None))
    as [H _].
  - reflexivity.
  - intros d. discriminate.
  - apply H. discriminate.
Defined.

Lemma server_answers_every_request_witness :
  exists rs,
    wfile (snd (serve (machine 0 0 0 [] "") libs GUIBridgeServer_init
                  [get_request "/health"; post "/click" None []] (boot None)))
    = rs /\ length rs = 2%nat.
Proof.
  apply (server_answers_every_request (machine 0 0 0 [] "") libs GUIBridgeServer_init
           [get_request "/health"; post "/click" None []] (boot None)).
  reflexivity.
Defined.

Lemma autostart_round_trip_witness :
  exists w1,
    set_autostart (fun _ _ => true) (fun _ _ => true) "/home/user" true (boot None)
    = (Ok tt, w1) /\
    fst (check_autostart "/home/user" w1) = Ok true /\
    fs w1 !! autostart_file "/home/user"
    = Some (String.list_byte_of_string desktop_entry) /\
    forall p, p <> autostart_file "/home/user" -> fs w1 !! p = fs (boot None) !! p.
Proof.
  destruct (autostart_round_trip (fun _ _ => true) (fun _ _ => true) "/home/user"
              (boot None)) as [H _].
  apply H. reflexivity.
Defined.

Lemma get_windows_shape_witness :
  fst (get_windows (machine 0 0 0 [] "") (boot None)) = Ok [].
Proof.
  destruct (get_windows_shape (machine 0 0 0 [] "") (boot None))
    as (ws & w' & E & _ & H).
  rewrite E. simpl. f_equal. apply H.
  intros (c & f & Hs & _). discriminate.
Defined.

End Runs_more.
